(** * autotune: a shallow embedding of the GC tuner and its container prober

    The Go package [autotune] periodically samples the runtime, computes a
    target GOGC value from pause latency, memory pressure and GC frequency,
    passes it through a chain of gates, and applies it with
    [debug.SetGCPercent].  This development embeds the tuner (the file that
    declares [Config], [Metrics], [TuningDecision] and [Tuner]) and the
    container prober ([DetectContainerResources] and its helpers) and states
    the properties of the specification against that embedding.

    Conventions of the embedding.
    - Go [int] and [time.Duration] are 64-bit signed integers: they are
      values of [Z] and every arithmetic operation of the source is followed
      by its wrap-around ([wrap_int]).  [uint32] and [uint64] wrap likewise.
    - Go [float64] is the kernel's binary64 type [float]; each operation is
      rounded on its own (no fused multiply-add).
    - [time.Time] is a number of nanoseconds on one clock; [Time.Sub]
      saturates as in the Go library.
    - The process-wide GOGC setting is explicit state ([Runtime]).
    - Everything the tuner reads from outside (memory statistics, pause
      list, clock) is an input of the tick ([TickInput]); the files, the
      process id and the environment form the [Host].
    - Locks, the logger and the two subscriber hooks carry no state of the
      tuner; the hooks are taken to be nil and log calls are dropped.  The
      reason string of a decision is kept as the data it is formatted from. *)

From Stdlib Require Import ZArith List String Ascii Bool Lia.
From Stdlib Require Import PrimFloat FloatOps SpecFloat.
Import ListNotations.

Set Warnings "-inexact-float".
Open Scope Z_scope.

(** ** Machine integers *)

Definition int_min : Z := - 2 ^ 63.
Definition int_max : Z := 2 ^ 63 - 1.

(** Two's-complement wrap-around of a 64-bit signed integer. *)
Definition wrap_int (z : Z) : Z := (z + 2 ^ 63) mod 2 ^ 64 - 2 ^ 63.
Definition wrap_int32 (z : Z) : Z := (z + 2 ^ 31) mod 2 ^ 32 - 2 ^ 31.
Definition wrap_uint32 (z : Z) : Z := z mod 2 ^ 32.
Definition wrap_uint64 (z : Z) : Z := z mod 2 ^ 64.

Definition int_add (a b : Z) : Z := wrap_int (a + b).
Definition int_sub (a b : Z) : Z := wrap_int (a - b).
Definition int_neg (a : Z) : Z := wrap_int (- a).

Definition in_int (z : Z) : Prop := int_min <= z <= int_max.

(** [func abs(x int) int] *)
Definition abs (x : Z) : Z := if x <? 0 then int_neg x else x.

(** ** Floating point conversions *)

(** [float64(x)] for an integer [x]: the nearest binary64 value, ties to even. *)
Definition float64_of_Z (z : Z) : float :=
  SF2Prim (binary_normalize prec emax z 0 false).

(** The integer part of a finite float (rounding toward zero), [None] for
    NaN and the infinities. *)
Definition float64_trunc (f : float) : option Z :=
  match Prim2SF f with
  | S754_zero _ => Some 0
  | S754_finite s m e =>
      let mag := if 0 <=? e then Zpos m * 2 ^ e else Zpos m / 2 ^ (- e) in
      Some (if s then - mag else mag)
  | S754_infinity _ => None
  | S754_nan => None
  end.

(** [int(f)].  Go truncates toward zero; when the value does not fit the
    language leaves the result to the implementation.  The amd64 and arm64
    compilers both give the most negative integer for [-Inf]; that value is
    used for every input that does not fit. *)
Definition float64_to_int (f : float) : Z :=
  match float64_trunc f with
  | Some z => if (int_min <=? z) && (z <=? int_max) then z else int_min
  | None => int_min
  end.

(** [uint64(f)], with [2^63] standing for the implementation's result on an
    input that does not fit. *)
Definition float64_to_uint64 (f : float) : Z :=
  match float64_trunc f with
  | Some z => if (0 <=? z) && (z <? 2 ^ 64) then z else 2 ^ 63
  | None => 2 ^ 63
  end.

(** ** Time *)

Definition Millisecond : Z := 1000000.
Definition Second : Z := 1000000000.
Definition Minute : Z := 60 * Second.

(** [t.Sub(u)]: the difference as a [Duration], saturated at the ends of
    the 64-bit range. *)
Definition time_Sub (t u : Z) : Z := Z.max int_min (Z.min int_max (t - u)).

(** [d.Seconds()]: whole seconds plus the fractional rest. *)
Definition duration_Seconds (d : Z) : float :=
  (float64_of_Z (Z.quot d Second) + float64_of_Z (Z.rem d Second) / 1e9)%float.

(** ** Errors *)

Inductive result (A : Type) : Type :=
| Ok (a : A)
| Err (msg : string).
Arguments Ok {A} a.
Arguments Err {A} msg.

(** ** The runtime's GOGC setting

    [debug.SetGCPercent(percent)] belongs to the Go runtime.  Its
    documentation: it sets the garbage collection target percentage and
    returns the previous setting; a negative percentage disables garbage
    collection.  The runtime stores [percent] converted to [int32], every
    negative value as [-1].  The package reads the setting by calling
    [SetGCPercent(-1)]; the constructor and the tests follow that call by a
    second one that writes the returned value back. *)

Record Runtime : Type := { gcPercent : Z }.

Definition SetGCPercent (percent : Z) (rt : Runtime) : Z * Runtime :=
  let p := wrap_int32 percent in
  (gcPercent rt, {| gcPercent := if p <? 0 then -1 else p |}).

(** ** Data model of the tuner *)

Record Config : Type := {
  MonitorInterval : Z;
  MinGOGC : Z;
  MaxGOGC : Z;
  TargetLatency : Z;
  MemoryLimitPercent : float;
  TuningAggressiveness : float;
  StabilizationWindow : Z;
  MaxChangePerInterval : Z
}.

Definition DefaultConfig : Config := {|
  MonitorInterval := 30 * Second;
  MinGOGC := 50;
  MaxGOGC := 800;
  TargetLatency := 10 * Millisecond;
  MemoryLimitPercent := 0.8;
  TuningAggressiveness := 0.3;
  StabilizationWindow := 5 * Minute;
  MaxChangePerInterval := 50
|}.

Record Metrics : Type := {
  GCPauseTime : Z;
  GCFrequency : float;
  HeapSize : Z;
  HeapAlloc : Z;
  HeapInuse : Z;
  NextGC : Z;
  LastGC : Z;
  NumGC : Z;
  MemoryLimit : Z;
  MemoryUsage : Z;
  MemoryPressure : float;
  CPUUsage : float;
  Throughput : float;
  ContainerMemLimit : Z;
  ContainerCPULimit : float;
  CurrentGOGC : Z;
  Timestamp : Z
}.

(** The zero value [Metrics{}]. *)
Definition zeroMetrics : Metrics := {|
  GCPauseTime := 0; GCFrequency := 0; HeapSize := 0; HeapAlloc := 0;
  HeapInuse := 0; NextGC := 0; LastGC := 0; NumGC := 0; MemoryLimit := 0;
  MemoryUsage := 0; MemoryPressure := 0; CPUUsage := 0; Throughput := 0;
  ContainerMemLimit := 0; ContainerCPULimit := 0; CurrentGOGC := 0;
  Timestamp := 0
|}.

(** The reason of a decision, as the pieces [buildReasonString] formats. *)
Inductive Direction : Type := increasing | decreasing.

Inductive ReasonFragment : Type :=
| PauseAboveTarget (pause_ms target_ms : float)
| HighMemoryPressure (percent : float)
| HighGCFrequency (per_sec : float).

Record ReasonText : Type := {
  direction : Direction;
  transition : Z * Z;
  fragments : list ReasonFragment
}.

(** [TuningDecision]; the fields [Timestamp] and [Metrics] of the source
    are [DecidedAt] and [Sample] here (the names are taken by [Metrics]). *)
Record TuningDecision : Type := {
  OldGOGC : Z;
  NewGOGC : Z;
  Reason : ReasonText;
  Confidence : float;
  DecidedAt : Z;
  Sample : Metrics
}.

Definition with_OldGOGC (old : Z) (d : TuningDecision) : TuningDecision :=
  {| OldGOGC := old; NewGOGC := NewGOGC d; Reason := Reason d;
     Confidence := Confidence d; DecidedAt := DecidedAt d; Sample := Sample d |}.

(** ** Strings of the Go library, on byte strings

    The prober reads kernel pseudo-files; their contents are ASCII, and the
    white space of [strings.TrimSpace] and [strings.Fields] is the ASCII
    white space here. *)

Definition isSpace (c : ascii) : bool :=
  let n := Z.of_nat (nat_of_ascii c) in
  ((9 <=? n) && (n <=? 13)) || (n =? 32).

(** [strings.HasPrefix(s, prefix)] *)
Fixpoint HasPrefix (s prefix : string) : bool :=
  match prefix, s with
  | EmptyString, _ => true
  | String _ _, EmptyString => false
  | String p prefix', String c s' => Ascii.eqb c p && HasPrefix s' prefix'
  end.

(** [strings.Contains(s, substr)] *)
Fixpoint Contains (s substr : string) : bool :=
  HasPrefix s substr ||
  match s with
  | EmptyString => false
  | String _ s' => Contains s' substr
  end.

Fixpoint trimLeft (s : string) : string :=
  match s with
  | EmptyString => EmptyString
  | String c s' => if isSpace c then trimLeft s' else s
  end.

Fixpoint trimRight (s : string) : string :=
  match s with
  | EmptyString => EmptyString
  | String c s' =>
      match trimRight s' with
      | EmptyString => if isSpace c then EmptyString else String c EmptyString
      | rest => String c rest
      end
  end.

(** [strings.TrimSpace(s)] *)
Definition TrimSpace (s : string) : string := trimRight (trimLeft s).

Fixpoint Fields_from (s cur : string) : list string :=
  match s with
  | EmptyString => if String.eqb cur EmptyString then [] else [cur]
  | String c s' =>
      if isSpace c
      then (if String.eqb cur EmptyString then Fields_from s' EmptyString else cur :: Fields_from s' EmptyString)
      else Fields_from s' (cur ++ String c EmptyString)
  end.

(** [strings.Fields(s)] *)
Definition Fields (s : string) : list string := Fields_from s EmptyString.

Fixpoint Split_from (s : string) (sep : ascii) (cur : string) : list string :=
  match s with
  | EmptyString => [cur]
  | String c s' =>
      if Ascii.eqb c sep then cur :: Split_from s' sep EmptyString
      else Split_from s' sep (cur ++ String c EmptyString)
  end.

(** [strings.Split(s, sep)] for a separator of one byte (the prober splits
    at [":"] and at [","]). *)
Definition Split (s : string) (sep : ascii) : list string := Split_from s sep EmptyString.

Definition digit_of (c : ascii) : option Z :=
  let n := Z.of_nat (nat_of_ascii c) in
  if (48 <=? n) && (n <=? 57) then Some (n - 48) else None.

Fixpoint parse_digits (s : string) (acc : Z) : option Z :=
  match s with
  | EmptyString => Some acc
  | String c s' =>
      match digit_of c with
      | Some d => parse_digits s' (10 * acc + d)
      | None => None
      end
  end.

(** [strconv.ParseUint(s, 10, 64)]: one or more decimal digits, no sign,
    an error when the value does not fit 64 bits. *)
Definition ParseUint (s : string) : result Z :=
  match s with
  | EmptyString => Err "invalid syntax"
  | _ =>
      match parse_digits s 0 with
      | Some n => if n <? 2 ^ 64 then Ok n else Err "value out of range"
      | None => Err "invalid syntax"
      end
  end.

Fixpoint raw_lines (s cur : string) : list string :=
  match s with
  | EmptyString => if String.eqb cur EmptyString then [] else [cur]
  | String c s' =>
      if Ascii.eqb c "010" then cur :: raw_lines s' EmptyString
      else raw_lines s' (cur ++ String c EmptyString)
  end.

Fixpoint dropCR (s : string) : string :=
  match s with
  | EmptyString => EmptyString
  | String c EmptyString => if Ascii.eqb c "013" then EmptyString else s
  | String c s' => String c (dropCR s')
  end.

Fixpoint scan_tokens (ls : list string) : list string :=
  match ls with
  | [] => []
  | l :: rest =>
      if Z.of_nat (String.length l) <=? 65535 then dropCR l :: scan_tokens rest
      else []
  end.

(** The lines a [bufio.Scanner] over [strings.NewReader(s)] yields: split
    at newlines, one trailing carriage return dropped, no empty last line;
    a line that does not fit the scanner's 64 KiB buffer ends the scan. *)
Definition ScanLines (s : string) : list string := scan_tokens (raw_lines s EmptyString).

(** ** The container prober *)

Record ContainerResources : Type := {
  CR_MemoryLimit : Z;
  CR_CPULimit : float;
  IsContainer : bool
}.

(** What the prober reads: [os.Stat] (whether it succeeds), [os.ReadFile],
    [os.Getpid] and [os.Getenv]. *)
Record Host : Type := {
  Stat : string -> bool;
  ReadFile : string -> result string;
  Getpid : Z;
  Getenv : string -> string
}.

Section Prober.

(** [strconv.ParseFloat(s, 64)] and [filepath.Join] belong to the Go
    library; the prober is embedded for any behaviour of the two. *)
Variable ParseFloat : string -> result float.
Variable Join : list string -> string.

Definition isRunningInContainer (h : Host) : bool :=
  if Stat h "/.dockerenv" then true
  else if
    match ReadFile h "/proc/1/cgroup" with
    | Ok content =>
        Contains content "docker" || Contains content "kubepods"
        || Contains content "containerd"
    | Err _ => false
    end
  then true
  else if Getpid h =? 1 then true
  else if negb (String.eqb (Getenv h "KUBERNETES_SERVICE_HOST") EmptyString) then true
  else false.

Fixpoint readCgroupV2MemoryLimit_paths (h : Host) (paths : list string) : result Z :=
  match paths with
  | [] => Err "cgroup v2 memory limit not found"
  | path :: rest =>
      match ReadFile h path with
      | Ok data =>
          let content := TrimSpace data in
          if String.eqb content "max" then readCgroupV2MemoryLimit_paths h rest
          else
            match ParseUint content with
            | Ok limit =>
                if (limit <? 2 ^ 63) && (0 <? limit) then Ok limit
                else readCgroupV2MemoryLimit_paths h rest
            | Err _ => readCgroupV2MemoryLimit_paths h rest
            end
      | Err _ => readCgroupV2MemoryLimit_paths h rest
      end
  end.

Definition readCgroupV2MemoryLimit (h : Host) : result Z :=
  readCgroupV2MemoryLimit_paths h
    ["/sys/fs/cgroup/memory.max"; "/sys/fs/cgroup/memory/memory.limit_in_bytes"]%string.

(** The first mount line with at least three fields whose third is
    ["cgroup"] gives the root; the empty string when there is none. *)
Fixpoint find_cgroupRoot (lines : list string) : string :=
  match lines with
  | [] => EmptyString
  | line :: rest =>
      match Fields line with
      | _ :: f1 :: f2 :: _ =>
          if String.eqb f2 "cgroup" then f1 else find_cgroupRoot rest
      | _ => find_cgroupRoot rest
      end
  end.

Fixpoint find_subsystem_line (lines : list string) (subsystem : string)
  : option string :=
  match lines with
  | [] => None
  | line :: rest =>
      match Split line ":" with
      | _ :: f1 :: f2 :: _ =>
          if existsb (fun sys => String.eqb sys subsystem) (Split f1 ",")
          then Some f2
          else find_subsystem_line rest subsystem
      | _ => find_subsystem_line rest subsystem
      end
  end.

Definition findCgroupPath (h : Host) (subsystem : string) : result string :=
  match ReadFile h "/proc/mounts" with
  | Err e => Err e
  | Ok mountData =>
      let cgroupRoot := find_cgroupRoot (ScanLines mountData) in
      if String.eqb cgroupRoot EmptyString then Err "cgroup mount point not found"
      else
        match ReadFile h "/proc/self/cgroup" with
        | Err e => Err e
        | Ok cgroupData =>
            match find_subsystem_line (ScanLines cgroupData) subsystem with
            | Some f2 => Ok (Join [cgroupRoot; subsystem; f2])
            | None => Err ("cgroup path for " ++ subsystem ++ " not found")
            end
        end
  end.

Definition readCgroupV1MemoryLimit (h : Host) : result Z :=
  match findCgroupPath h "memory" with
  | Err e => Err e
  | Ok cgroupPath =>
      let limitPath := Join [cgroupPath; "memory.limit_in_bytes"%string] in
      match ReadFile h limitPath with
      | Err e => Err e
      | Ok data =>
          match ParseUint (TrimSpace data) with
          | Err e => Err e
          | Ok limit =>
              if (2 ^ 63 <=? limit) || (limit =? 0)
              then Err "no memory limit set"
              else Ok limit
          end
      end
  end.

Fixpoint find_MemTotal (lines : list string) : result Z :=
  match lines with
  | [] => Err "MemTotal not found in /proc/meminfo"
  | line :: rest =>
      if HasPrefix line "MemTotal:" then
        match Fields line with
        | _ :: f1 :: _ =>
            match ParseUint f1 with
            | Ok kb => Ok (wrap_uint64 (kb * 1024))
            | Err _ => find_MemTotal rest
            end
        | _ => find_MemTotal rest
        end
      else find_MemTotal rest
  end.

Definition readProcMemInfo (h : Host) : result Z :=
  match ReadFile h "/proc/meminfo" with
  | Err e => Err e
  | Ok data => find_MemTotal (ScanLines data)
  end.

Definition detectMemoryLimit (h : Host) : result Z :=
  match readCgroupV2MemoryLimit h with
  | Ok limit => Ok limit
  | Err _ =>
      match readCgroupV1MemoryLimit h with
      | Ok limit => Ok limit
      | Err _ =>
          match readProcMemInfo h with
          | Ok limit => Ok limit
          | Err _ => Err "unable to detect memory limit"
          end
      end
  end.

Definition readCgroupV2CPULimit (h : Host) : result float :=
  let not_found := Err "cgroup v2 CPU limit not found" in
  match ReadFile h "/sys/fs/cgroup/cpu.max" with
  | Ok data =>
      let content := TrimSpace data in
      if String.eqb content "max" then Err "no CPU limit set"
      else
        match Fields content with
        | f0 :: f1 :: _ =>
            match ParseFloat f0, ParseFloat f1 with
            | Ok quota, Ok period =>
                if (0 <? period)%float then Ok (quota / period)%float
                else not_found
            | _, _ => not_found
            end
        | _ => not_found
        end
  | Err _ => not_found
  end.

Definition readCgroupV1CPULimit (h : Host) : result float :=
  match findCgroupPath h "cpu" with
  | Err e => Err e
  | Ok cgroupPath =>
      let quotaPath := Join [cgroupPath; "cpu.cfs_quota_us"%string] in
      let periodPath := Join [cgroupPath; "cpu.cfs_period_us"%string] in
      match ReadFile h quotaPath with
      | Err e => Err e
      | Ok quotaData =>
          match ReadFile h periodPath with
          | Err e => Err e
          | Ok periodData =>
              match ParseFloat (TrimSpace quotaData) with
              | Err e => Err e
              | Ok quota =>
                  match ParseFloat (TrimSpace periodData) with
                  | Err e => Err e
                  | Ok period =>
                      if (quota <=? 0)%float || (period <=? 0)%float
                      then Err "no CPU limit set"
                      else Ok (quota / period)%float
                  end
              end
          end
      end
  end.

Definition detectCPULimit (h : Host) : result float :=
  match readCgroupV2CPULimit h with
  | Ok limit => Ok limit
  | Err _ =>
      match readCgroupV1CPULimit h with
      | Ok limit => Ok limit
      | Err _ => Err "unable to detect CPU limit"
      end
  end.

(** [DetectContainerResources] returns a pointer and an error; [None]
    stands for nil in both. *)
Definition DetectContainerResources (h : Host)
  : option ContainerResources * option string :=
  let resources :=
    if isRunningInContainer h then
      {| IsContainer := true;
         CR_MemoryLimit :=
           match detectMemoryLimit h with Ok memLimit => memLimit | Err _ => 0 end;
         CR_CPULimit :=
           match detectCPULimit h with Ok cpuLimit => cpuLimit | Err _ => 0%float end |}
    else
      {| IsContainer := false; CR_MemoryLimit := 0; CR_CPULimit := 0%float |} in
  (Some resources, None).

End Prober.

(** ** The tuner *)

Record Tuner : Type := {
  config : Config;
  running : bool;
  metricsHistory : list Metrics;
  maxHistory : Z;
  decisionHistory : list TuningDecision;
  maxDecisions : Z;
  containerResources : option ContainerResources;
  lastGOGC : Z;
  stabilityCount : Z;
  totalDecisions : Z;
  successfulTunes : Z;
  revertedTunes : Z;
  avgImprovement : float
}.

Definition with_running (b : bool) (t : Tuner) : Tuner :=
  {| config := config t; running := b; metricsHistory := metricsHistory t;
     maxHistory := maxHistory t; decisionHistory := decisionHistory t;
     maxDecisions := maxDecisions t; containerResources := containerResources t;
     lastGOGC := lastGOGC t; stabilityCount := stabilityCount t;
     totalDecisions := totalDecisions t; successfulTunes := successfulTunes t;
     revertedTunes := revertedTunes t; avgImprovement := avgImprovement t |}.

Definition with_metricsHistory (h : list Metrics) (t : Tuner) : Tuner :=
  {| config := config t; running := running t; metricsHistory := h;
     maxHistory := maxHistory t; decisionHistory := decisionHistory t;
     maxDecisions := maxDecisions t; containerResources := containerResources t;
     lastGOGC := lastGOGC t; stabilityCount := stabilityCount t;
     totalDecisions := totalDecisions t; successfulTunes := successfulTunes t;
     revertedTunes := revertedTunes t; avgImprovement := avgImprovement t |}.

Definition with_stabilityCount (n : Z) (t : Tuner) : Tuner :=
  {| config := config t; running := running t; metricsHistory := metricsHistory t;
     maxHistory := maxHistory t; decisionHistory := decisionHistory t;
     maxDecisions := maxDecisions t; containerResources := containerResources t;
     lastGOGC := lastGOGC t; stabilityCount := n;
     totalDecisions := totalDecisions t; successfulTunes := successfulTunes t;
     revertedTunes := revertedTunes t; avgImprovement := avgImprovement t |}.

(** The four fields [applyTuningDecision] writes. *)
Definition with_applied (h : list TuningDecision) (total last : Z) (t : Tuner) : Tuner :=
  {| config := config t; running := running t; metricsHistory := metricsHistory t;
     maxHistory := maxHistory t; decisionHistory := h;
     maxDecisions := maxDecisions t; containerResources := containerResources t;
     lastGOGC := last; stabilityCount := 0;
     totalDecisions := total; successfulTunes := successfulTunes t;
     revertedTunes := revertedTunes t; avgImprovement := avgImprovement t |}.

(** [len(s)] as a Go [int]. *)
Definition len {A : Type} (s : list A) : Z := Z.of_nat (List.length s).

(** [s[len(s)-1]] when [len(s) > 0]. *)
Definition last_elem {A : Type} (s : list A) : option A :=
  match rev s with
  | [] => None
  | x :: _ => Some x
  end.

(** [s[len(s)-n:]] for [n <= len(s)]. *)
Definition last_n {A : Type} (n : nat) (s : list A) : list A :=
  skipn (List.length s - n) s.

(** [s = append(s, x); if len(s) > max { s = s[1:] }] *)
Definition append_capped {A : Type} (max : Z) (s : list A) (x : A) : list A :=
  let s := s ++ [x] in
  if max <? len s then tl s else s.

(** *** Validation and construction *)

(** [validateConfig]; [None] is the nil error. *)
Definition validateConfig (config : Config) : option string :=
  if MonitorInterval config <? Second then
    Some "monitor interval must be at least 1 second"%string
  else if (MinGOGC config <? 10) || (1000 <? MinGOGC config) then
    Some "min GOGC must be between 10 and 1000"%string
  else if (MaxGOGC config <? MinGOGC config) || (2000 <? MaxGOGC config) then
    Some "max GOGC must be between min GOGC and 2000"%string
  else if (TuningAggressiveness config <? 0.1)%float
          || (2.0 <? TuningAggressiveness config)%float then
    Some "tuning aggressiveness must be between 0.1 and 2.0"%string
  else if (MemoryLimitPercent config <? 0.1)%float
          || (1.0 <? MemoryLimitPercent config)%float then
    Some "memory limit percent must be between 0.1 and 1.0"%string
  else None.

Section Construction.

Variable ParseFloat : string -> result float.
Variable Join : list string -> string.

(** [NewTuner]; a nil [config] is [None].  The current GOGC is obtained by
    [SetGCPercent(-1)] and written back by a second call. *)
Definition NewTuner (config : option Config) (h : Host) (rt : Runtime)
  : result Tuner * Runtime :=
  let config := match config with None => DefaultConfig | Some c => c end in
  match validateConfig config with
  | Some err => (Err ("invalid config: " ++ err)%string, rt)
  | None =>
      let '(containerResources, _) := DetectContainerResources ParseFloat Join h in
      let '(current, rt) := SetGCPercent (-1) rt in
      let tuner :=
        {| config := config; running := false; metricsHistory := [];
           maxHistory := 100; decisionHistory := []; maxDecisions := 50;
           containerResources := containerResources; lastGOGC := current;
           stabilityCount := 0; totalDecisions := 0; successfulTunes := 0;
           revertedTunes := 0; avgImprovement := 0%float |} in
      let '(_, rt) := SetGCPercent (lastGOGC tuner) rt in
      (Ok tuner, rt)
  end.

End Construction.

(** [Start] and [Stop], without the worker they launch and cancel. *)
Definition Start (t : Tuner) : option string * Tuner :=
  if running t then (Some "tuner is already running"%string, t)
  else (None, with_running true t).

Definition Stop (t : Tuner) : option string * Tuner :=
  if negb (running t) then (Some "tuner is not running"%string, t)
  else (None, with_running false t).

(** *** Metrics collection *)

(** [runtime.MemStats], the fields read. *)
Record MemStats : Type := {
  m_HeapSys : Z;
  m_HeapAlloc : Z;
  m_HeapInuse : Z;
  m_NextGC : Z;
  m_NumGC : Z
}.

(** One reading of the runtime: [runtime.ReadMemStats], the pause list of
    [debug.ReadGCStats] (most recent first) and [time.Now()]. *)
Record Reading : Type := {
  memStats : MemStats;
  gcStats_Pause : list Z;
  now : Z
}.

Definition collectMetrics (t : Tuner) (r : Reading) (rt : Runtime)
  : Metrics * Runtime :=
  let m := memStats r in
  let '(current, rt) := SetGCPercent (-1) rt in
  let pause :=
    if 0 <? len (gcStats_Pause r) then
      let count := if 10 <? len (gcStats_Pause r) then 10 else len (gcStats_Pause r) in
      let totalPause := fold_left int_add (firstn (Z.to_nat count) (gcStats_Pause r)) 0 in
      Z.quot totalPause count
    else 0 in
  let frequency :=
    match last_elem (metricsHistory t) with
    | Some prev =>
        let timeDiff := duration_Seconds (time_Sub (now r) (Timestamp prev)) in
        if (0 <? timeDiff)%float then
          let gcDiff := float64_of_Z (wrap_uint32 (m_NumGC m - NumGC prev)) in
          (gcDiff / timeDiff)%float
        else 0%float
    | None => 0%float
    end in
  let '(containerMem, containerCPU, pressure) :=
    match containerResources t with
    | Some cr =>
        (CR_MemoryLimit cr, CR_CPULimit cr,
         if 0 <? CR_MemoryLimit cr
         then (float64_of_Z (m_HeapInuse m) / float64_of_Z (CR_MemoryLimit cr))%float
         else 0%float)
    | None => (0, 0%float, 0%float)
    end in
  let '(usage, limit, pressure) :=
    if 0 <? containerMem then
      let limit :=
        float64_to_uint64 (float64_of_Z containerMem * MemoryLimitPercent (config t))%float in
      (m_HeapInuse m, limit, (float64_of_Z (m_HeapInuse m) / float64_of_Z limit)%float)
    else (0, 0, pressure) in
  ({| GCPauseTime := pause; GCFrequency := frequency;
      HeapSize := m_HeapSys m; HeapAlloc := m_HeapAlloc m;
      HeapInuse := m_HeapInuse m; NextGC := m_NextGC m; LastGC := 0;
      NumGC := m_NumGC m; MemoryLimit := limit; MemoryUsage := usage;
      MemoryPressure := pressure; CPUUsage := 0; Throughput := 0;
      ContainerMemLimit := containerMem; ContainerCPULimit := containerCPU;
      CurrentGOGC := current; Timestamp := now r |}, rt).

Definition GetMetrics (t : Tuner) (r : Reading) (rt : Runtime) : Metrics * Runtime :=
  collectMetrics t r rt.

(** The map [GetStats] returns, key by key. *)
Record Stats : Type := {
  total_decisions : Z;
  successful_tunes : Z;
  reverted_tunes : Z;
  avg_improvement : float;
  current_gogc : Z;
  stability_count : Z;
  metrics_history : Z;
  decision_history : Z;
  stats_running : bool
}.

Definition GetStats (t : Tuner) (rt : Runtime) : Stats * Runtime :=
  let '(current, rt) := SetGCPercent (-1) rt in
  ({| total_decisions := totalDecisions t;
      successful_tunes := successfulTunes t;
      reverted_tunes := revertedTunes t;
      avg_improvement := avgImprovement t;
      current_gogc := current;
      stability_count := stabilityCount t;
      metrics_history := len (metricsHistory t);
      decision_history := len (decisionHistory t);
      stats_running := running t |}, rt).

(** *** The control law

    [calculateTargetGOGC] computes three factors, averages them, smooths the
    average and scales the current GOGC.  The local variables of the source
    are definitions of their own here. *)

Definition latencyFactor (t : Tuner) (metrics : Metrics) : float :=
  if TargetLatency (config t) <? GCPauseTime metrics then
    let ratio :=
      (float64_of_Z (GCPauseTime metrics) / float64_of_Z (TargetLatency (config t)))%float in
    (1.0 + (ratio - 1.0) * TuningAggressiveness (config t))%float
  else
    let ratio :=
      (float64_of_Z (TargetLatency (config t)) / float64_of_Z (GCPauseTime metrics))%float in
    (1.0 - (ratio - 1.0) * TuningAggressiveness (config t) * 0.5)%float.

Definition memoryFactor (t : Tuner) (metrics : Metrics) : float :=
  if (0.8 <? MemoryPressure metrics)%float then
    (1.0 - (MemoryPressure metrics - 0.8) * 2.0 * TuningAggressiveness (config t))%float
  else if (MemoryPressure metrics <? 0.4)%float then
    (1.0 + (0.4 - MemoryPressure metrics) * 1.5 * TuningAggressiveness (config t))%float
  else 1.0%float.

Definition frequencyFactor (t : Tuner) (metrics : Metrics) : float :=
  if (2.0 <? GCFrequency metrics)%float then
    (1.0 + (GCFrequency metrics - 2.0) * 0.1 * TuningAggressiveness (config t))%float
  else if (GCFrequency metrics <? 0.1)%float then
    (1.0 - (0.1 - GCFrequency metrics) * 0.5 * TuningAggressiveness (config t))%float
  else 1.0%float.

Definition combinedFactor (t : Tuner) (metrics : Metrics) : float :=
  ((latencyFactor t metrics + memoryFactor t metrics + frequencyFactor t metrics) / 3.0)%float.

Definition alpha : float := 0.3%float.

Definition smoothedFactor (t : Tuner) (metrics : Metrics) : float :=
  (alpha * combinedFactor t metrics + (1 - alpha) * 1.0)%float.

Definition calculateTargetGOGC (t : Tuner) (metrics : Metrics) : Z :=
  let currentGOGC := CurrentGOGC metrics in
  float64_to_int (float64_of_Z currentGOGC * smoothedFactor t metrics)%float.

(** *** Confidence *)

Definition calculateVariation (metrics : list Metrics) (extractor : Metrics -> float)
  : float :=
  if len metrics <? 2 then 0%float
  else
    let values := map extractor metrics in
    let mean := fold_left (fun mean v => (mean + v)%float) values 0%float in
    let mean := (mean / float64_of_Z (len values))%float in
    if (mean =? 0)%float then 0%float
    else
      let variance :=
        fold_left (fun variance v => (variance + (v - mean) * (v - mean))%float)
                  values 0%float in
      let variance := (variance / float64_of_Z (len values))%float in
      let stdDev := PrimFloat.sqrt variance in
      (stdDev / mean)%float.

Definition calculateConfidence (t : Tuner) (metrics : Metrics) : float :=
  let confidence := 1.0%float in
  let confidence :=
    if len (metricsHistory t) <? 5 then (confidence * 0.7)%float else confidence in
  let confidence :=
    if 3 <=? len (metricsHistory t) then
      let recent := last_n 3 (metricsHistory t) in
      let pauseVariation :=
        calculateVariation recent (fun m => float64_of_Z (GCPauseTime m)) in
      if (0.3 <? pauseVariation)%float then (confidence * 0.8)%float else confidence
    else confidence in
  let confidence :=
    if (CurrentGOGC metrics <=? int_add (MinGOGC (config t)) 20)
       || (int_sub (MaxGOGC (config t)) 20 <=? CurrentGOGC metrics)
    then (confidence * 0.9)%float else confidence in
  let confidence :=
    if (0.95 <? MemoryPressure metrics)%float || (MemoryPressure metrics <? 0.05)%float
    then (confidence * 0.8)%float else confidence in
  confidence.

(** *** Reason *)

Definition buildReasonString (t : Tuner) (metrics : Metrics) (oldGOGC newGOGC : Z)
  : ReasonText :=
  let reasons := [] in
  let reasons :=
    if TargetLatency (config t) <? GCPauseTime metrics then
      reasons ++ [PauseAboveTarget (float64_of_Z (GCPauseTime metrics) / 1e6)%float
                                   (float64_of_Z (TargetLatency (config t)) / 1e6)%float]
    else reasons in
  let reasons :=
    if (0.8 <? MemoryPressure metrics)%float then
      reasons ++ [HighMemoryPressure (MemoryPressure metrics * 100)%float]
    else reasons in
  let reasons :=
    if (2.0 <? GCFrequency metrics)%float then
      reasons ++ [HighGCFrequency (GCFrequency metrics)]
    else reasons in
  {| direction := if newGOGC <? oldGOGC then decreasing else increasing;
     transition := (oldGOGC, newGOGC);
     fragments := reasons |}.

(** *** Oscillation guard *)

Definition shouldSkipDueToOscillation (t : Tuner) (now : Z) : bool :=
  if len (decisionHistory t) <? 4 then false
  else
    let recent := last_n 4 (decisionHistory t) in
    let increaseCount :=
      len (filter (fun d => OldGOGC d <? NewGOGC d) recent) in
    let decreaseCount :=
      len (filter (fun d => negb (OldGOGC d <? NewGOGC d)) recent) in
    if (0 <? increaseCount) && (0 <? decreaseCount) then
      match recent with
      | oldest :: _ =>
          if time_Sub now (DecidedAt oldest) <? StabilizationWindow (config t)
          then true else false
      | [] => false
      end
    else false.

(** *** The gates *)

(** [rate_limited]: the step "limit the change per interval". *)
Definition rate_limited (t : Tuner) (currentGOGC targetGOGC : Z) : Z :=
  let change := int_sub targetGOGC currentGOGC in
  if MaxChangePerInterval (config t) <? abs change then
    if 0 <? change then int_add currentGOGC (MaxChangePerInterval (config t))
    else int_sub currentGOGC (MaxChangePerInterval (config t))
  else targetGOGC.

(** [bounded]: the step "ensure bounds". *)
Definition bounded (t : Tuner) (targetGOGC : Z) : Z :=
  let targetGOGC :=
    if targetGOGC <? MinGOGC (config t) then MinGOGC (config t) else targetGOGC in
  if MaxGOGC (config t) <? targetGOGC then MaxGOGC (config t) else targetGOGC.

(** [makeTuningDecision]: the decision (nil is [None]) and the tuner, whose
    stability counter the minimum-change gate increments.  [guard_now] and
    [decision_now] are the two readings of [time.Now()]. *)
Definition makeTuningDecision (t : Tuner) (metrics : Metrics)
    (guard_now decision_now : Z) : option TuningDecision * Tuner :=
  let currentGOGC := CurrentGOGC metrics in
  if len (metricsHistory t) <? 2 then (None, t)
  else if shouldSkipDueToOscillation t guard_now then (None, t)
  else
    let targetGOGC := calculateTargetGOGC t metrics in
    let change := int_sub targetGOGC currentGOGC in
    if abs change <? 10 then
      (None, with_stabilityCount (int_add (stabilityCount t) 1) t)
    else
      let targetGOGC := rate_limited t currentGOGC targetGOGC in
      let targetGOGC := bounded t targetGOGC in
      let confidence := calculateConfidence t metrics in
      if (confidence <? 0.6)%float then (None, t)
      else
        let reason := buildReasonString t metrics currentGOGC targetGOGC in
        (Some {| OldGOGC := currentGOGC; NewGOGC := targetGOGC;
                 Reason := reason; Confidence := confidence;
                 DecidedAt := decision_now; Sample := metrics |}, t).

(** *** Applying a decision and the tick *)

(** [applyTuningDecision]: the tuner, the runtime and the decision as it is
    recorded (its [OldGOGC] is what [SetGCPercent] returned). *)
Definition applyTuningDecision (t : Tuner) (decision : TuningDecision) (rt : Runtime)
  : Tuner * Runtime * TuningDecision :=
  let '(oldGOGC, rt) := SetGCPercent (NewGOGC decision) rt in
  let decision := with_OldGOGC oldGOGC decision in
  let history := append_capped (maxDecisions t) (decisionHistory t) decision in
  (with_applied history (int_add (totalDecisions t) 1) (NewGOGC decision) t,
   rt, decision).

(** The inputs of one tick: the runtime reading and the two later clock
    readings. *)
Record TickInput : Type := {
  reading : Reading;
  guard_now : Z;
  decision_now : Z
}.

(** [performTuningCycle]: the tuner and the runtime after the tick, and the
    decision applied in it, if any. *)
Definition performTuningCycle (t : Tuner) (i : TickInput) (rt : Runtime)
  : Tuner * Runtime * option TuningDecision :=
  let '(metrics, rt) := collectMetrics t (reading i) rt in
  let t := with_metricsHistory (append_capped (maxHistory t) (metricsHistory t) metrics) t in
  let '(decision, t) := makeTuningDecision t metrics (guard_now i) (decision_now i) in
  match decision with
  | Some decision =>
      let '(t, rt, applied) := applyTuningDecision t decision rt in
      (t, rt, Some applied)
  | None => (t, rt, None)
  end.

(** A run of ticks, oldest first. *)
Fixpoint run_ticks (t : Tuner) (inputs : list TickInput) (rt : Runtime)
  : Tuner * Runtime :=
  match inputs with
  | [] => (t, rt)
  | i :: rest =>
      let '(t, rt, _) := performTuningCycle t i rt in
      run_ticks t rest rt
  end.

(** ** Concrete tuners and samples used in the examples below *)

(** A tuner as [NewTuner] leaves it outside a container, with a given
    configuration and sample history. *)
Definition tuner_with (cfg : Config) (history : list Metrics) : Tuner :=
  {| config := cfg; running := false; metricsHistory := history;
     maxHistory := 100; decisionHistory := []; maxDecisions := 50;
     containerResources := None; lastGOGC := 100; stabilityCount := 0;
     totalDecisions := 0; successfulTunes := 0; revertedTunes := 0;
     avgImprovement := 0%float |}.

(** A sample with the four fields the decision path reads. *)
Definition sample_of (pause : Z) (frequency pressure : float) (gogc : Z) : Metrics :=
  {| GCPauseTime := pause; GCFrequency := frequency; HeapSize := 0; HeapAlloc := 0;
     HeapInuse := 0; NextGC := 0; LastGC := 0; NumGC := 0; MemoryLimit := 0;
     MemoryUsage := 0; MemoryPressure := pressure; CPUUsage := 0; Throughput := 0;
     ContainerMemLimit := 0; ContainerCPULimit := 0; CurrentGOGC := gogc;
     Timestamp := 0 |}.

(** The default configuration with aggressiveness 0.5, as in the tests. *)
Definition config_half : Config :=
  {| MonitorInterval := 30 * Second; MinGOGC := 50; MaxGOGC := 800;
     TargetLatency := 10 * Millisecond; MemoryLimitPercent := 0.8;
     TuningAggressiveness := 0.5; StabilizationWindow := 5 * Minute;
     MaxChangePerInterval := 50 |}.

(** Pause 50 ms against a 10 ms target, at several current ratios. *)
Definition high_pause (gogc : Z) : Metrics := sample_of (50 * Millisecond) 1.0 0.5 gogc.

(** Five such samples at ratio 795 under the default configuration
    (bounds 50 and 800, at most 50 per tick). *)
Definition near_max_tuner : Tuner :=
  tuner_with DefaultConfig (repeat (high_pause 795) 5).

(** The same at ratio 1000, above the upper bound. *)
Definition above_max_tuner : Tuner :=
  tuner_with DefaultConfig (repeat (high_pause 1000) 5).

(** Ratio 400 with aggressiveness 0.5: the target 480 is rate-limited. *)
Definition mid_range_tuner : Tuner :=
  tuner_with config_half (repeat (high_pause 400) 5).

(** A tick thirty seconds after the samples above: one pause of 50 ms,
    thirty collections since. *)
Definition tick_high_pause : TickInput :=
  {| reading :=
       {| memStats := {| m_HeapSys := 0; m_HeapAlloc := 0; m_HeapInuse := 0;
                         m_NextGC := 0; m_NumGC := 30 |};
          gcStats_Pause := [50 * Millisecond];
          now := 30 * Second |};
     guard_now := 30 * Second;
     decision_now := 30 * Second |}.

(** A configuration that passes [validateConfig] and meets the positivity
    conditions of the configuration table on the three fields the function
    does not look at. *)
Definition valid_configuration (c : Config) : Prop :=
  validateConfig c = None
  /\ 0 < TargetLatency c
  /\ 0 < StabilizationWindow c
  /\ 0 < MaxChangePerInterval c.

(** What [validateConfig] examines, condition by condition.  The float
    conditions are the source's comparisons, which a NaN passes. *)
Definition code_accepts (c : Config) : Prop :=
  Second <= MonitorInterval c
  /\ 10 <= MinGOGC c <= 1000
  /\ MinGOGC c <= MaxGOGC c <= 2000
  /\ (TuningAggressiveness c <? 0.1)%float = false
  /\ (2.0 <? TuningAggressiveness c)%float = false
  /\ (MemoryLimitPercent c <? 0.1)%float = false
  /\ (1.0 <? MemoryLimitPercent c)%float = false.

(** The validation column of the configuration table of the specification,
    row by row, to be compared with [code_accepts]. *)
Definition spec_accepts (c : Config) : Prop :=
  Second <= MonitorInterval c
  /\ 10 <= MinGOGC c /\ MinGOGC c <= MaxGOGC c /\ MaxGOGC c <= 2000
  /\ 0 < TargetLatency c
  /\ (0.1 <=? MemoryLimitPercent c)%float = true
  /\ (MemoryLimitPercent c <=? 1.0)%float = true
  /\ (0.1 <=? TuningAggressiveness c)%float = true
  /\ (TuningAggressiveness c <=? 2.0)%float = true
  /\ 0 < StabilizationWindow c
  /\ 0 < MaxChangePerInterval c.

(** A configuration with the three fields [validateConfig] does not read
    replaced. *)
Definition with_unchecked (latency window change : Z) (c : Config) : Config :=
  {| MonitorInterval := MonitorInterval c; MinGOGC := MinGOGC c; MaxGOGC := MaxGOGC c;
     TargetLatency := latency; MemoryLimitPercent := MemoryLimitPercent c;
     TuningAggressiveness := TuningAggressiveness c;
     StabilizationWindow := window; MaxChangePerInterval := change |}.

(** The default configuration with a zero target latency, a zero
    stabilization window and a zero change cap. *)
Definition config_zeroes : Config := with_unchecked 0 0 0 DefaultConfig.

(** The default configuration with the bounds moved to 1500 and 1800. *)
Definition config_high_min : Config :=
  {| MonitorInterval := 30 * Second; MinGOGC := 1500; MaxGOGC := 1800;
     TargetLatency := 10 * Millisecond; MemoryLimitPercent := 0.8;
     TuningAggressiveness := 0.3; StabilizationWindow := 5 * Minute;
     MaxChangePerInterval := 50 |}.

(** A sample with no pause recorded yet, and five of them as history. *)
Definition no_pause : Metrics := sample_of 0 1.0 0.5 100.
Definition no_pause_tuner : Tuner := tuner_with DefaultConfig (repeat no_pause 5).

(** The first control-law scenario of the specification. *)
Definition scenario_tuner : Tuner := tuner_with config_half [].

(** The states a tuner goes through: ticks at any runtime setting, and
    decisions applied directly, as the tests of the package do. *)
Inductive evolves (t0 : Tuner) : Tuner -> Prop :=
| evolves_start : evolves t0 t0
| evolves_tick (t : Tuner) (i : TickInput) (rt : Runtime) :
    evolves t0 t -> evolves t0 (fst (fst (performTuningCycle t i rt)))
| evolves_decision (t : Tuner) (d : TuningDecision) (rt : Runtime) :
    evolves t0 t -> evolves t0 (fst (fst (applyTuningDecision t d rt))).

(** None of the four containerization signals is present. *)
Definition signals_absent (h : Host) : Prop :=
  Stat h "/.dockerenv" = false
  /\ match ReadFile h "/proc/1/cgroup" with
     | Ok content =>
         Contains content "docker" = false
         /\ Contains content "kubepods" = false
         /\ Contains content "containerd" = false
     | Err _ => True
     end
  /\ Getpid h <> 1
  /\ Getenv h "KUBERNETES_SERVICE_HOST" = EmptyString.

(** A host outside any container whose cgroup files nevertheless report
    limits: 512 MiB of memory and half a core. *)
Definition limited_host : Host :=
  {| Stat := fun _ => false;
     ReadFile := fun path =>
       if String.eqb path "/proc/1/cgroup" then Ok ("0::/init.scope" ++ String "010" EmptyString)%string
       else if String.eqb path "/sys/fs/cgroup/memory.max"
       then Ok ("536870912" ++ String "010" EmptyString)%string
       else if String.eqb path "/sys/fs/cgroup/cpu.max"
       then Ok ("50000 100000" ++ String "010" EmptyString)%string
       else Err "no such file or directory";
     Getpid := 4242;
     Getenv := fun _ => EmptyString |}.

(** Stand-ins for the two library functions, enough for the files of
    [limited_host]: unsigned decimal integers, and joining with a slash. *)
Definition decimal_ParseFloat (s : string) : result float :=
  match ParseUint s with
  | Ok n => Ok (float64_of_Z n)
  | Err e => Err e
  end.

Definition slash_Join (elems : list string) : string := String.concat "/" elems.

(** Memory pressure exactly at the lower edge 0.05, with two samples of
    history. *)
Definition edge_sample : Metrics := sample_of (50 * Millisecond) 1.0 0.05 100.
Definition edge_tuner : Tuner := tuner_with DefaultConfig (repeat edge_sample 2).

(** No container limit known: memory pressure 0, four samples of history. *)
Definition unlimited_sample : Metrics := sample_of (50 * Millisecond) 1.0 0 100.
Definition unlimited_tuner : Tuner := tuner_with DefaultConfig (repeat unlimited_sample 4).

(** The tuner [NewTuner] builds from the default configuration on
    [limited_host] when the ratio is 100. *)
Definition fresh_tuner : Tuner :=
  {| config := DefaultConfig; running := false; metricsHistory := [];
     maxHistory := 100; decisionHistory := []; maxDecisions := 50;
     containerResources :=
       Some {| CR_MemoryLimit := 0; CR_CPULimit := 0%float; IsContainer := false |};
     lastGOGC := 100; stabilityCount := 0; totalDecisions := 0;
     successfulTunes := 0; revertedTunes := 0; avgImprovement := 0%float |}.

(** Not inside the open interval from 0.05 to 0.95: at most 0.05 or at
    least 0.95. *)
Definition outside_open_interval (x : float) : bool :=
  ((x <=? 0.05) || (0.95 <=? x))%float.

(** The condition under which [calculateConfidence] applies its last
    factor: strictly above 0.95 or strictly below 0.05. *)
Definition extreme_pressure (x : float) : bool :=
  ((0.95 <? x) || (x <? 0.05))%float.

(** No container memory limit is known to the tuner. *)
Definition no_known_limit (t : Tuner) : Prop :=
  match containerResources t with
  | Some cr => CR_MemoryLimit cr = 0
  | None => True
  end.

(** ** Container usage statistics

    [GetContainerStats] and its helpers, from the same file as the prober. *)

Record ContainerStats : Type := {
  CS_MemoryUsage : Z;
  CS_CPUUsage : float
}.

Section Usage.

Variable Join : list string -> string.

Definition readCgroupV2MemoryUsage (h : Host) : result Z :=
  match ReadFile h "/sys/fs/cgroup/memory.current" with
  | Err e => Err e
  | Ok data => ParseUint (TrimSpace data)
  end.

Definition readCgroupV1MemoryUsage (h : Host) : result Z :=
  match findCgroupPath Join h "memory" with
  | Err e => Err e
  | Ok cgroupPath =>
      let usagePath := Join [cgroupPath; "memory.usage_in_bytes"%string] in
      match ReadFile h usagePath with
      | Err e => Err e
      | Ok data => ParseUint (TrimSpace data)
      end
  end.

Definition getCurrentMemoryUsage (h : Host) : result Z :=
  match readCgroupV2MemoryUsage h with
  | Ok usage => Ok usage
  | Err _ =>
      match readCgroupV1MemoryUsage h with
      | Ok usage => Ok usage
      | Err _ => Err "unable to get memory usage"
      end
  end.

Fixpoint find_usage_usec (lines : list string) : result float :=
  match lines with
  | [] => Err "CPU usage not found in cgroup v2"
  | line :: rest =>
      if HasPrefix line "usage_usec" then
        match Fields line with
        | _ :: f1 :: _ =>
            match ParseUint f1 with
            | Ok usec => Ok (float64_of_Z usec / 1000000.0)%float
            | Err _ => find_usage_usec rest
            end
        | _ => find_usage_usec rest
        end
      else find_usage_usec rest
  end.

Definition readCgroupV2CPUUsage (h : Host) : result float :=
  match ReadFile h "/sys/fs/cgroup/cpu.stat" with
  | Err e => Err e
  | Ok data => find_usage_usec (ScanLines data)
  end.

Definition readCgroupV1CPUUsage (h : Host) : result float :=
  match findCgroupPath Join h "cpuacct" with
  | Err e => Err e
  | Ok cgroupPath =>
      let usagePath := Join [cgroupPath; "cpuacct.usage"%string] in
      match ReadFile h usagePath with
      | Err e => Err e
      | Ok data =>
          match ParseUint (TrimSpace data) with
          | Err e => Err e
          | Ok usage => Ok (float64_of_Z usage / 1000000000.0)%float
          end
      end
  end.

Definition getCurrentCPUUsage (h : Host) : result float :=
  match readCgroupV2CPUUsage h with
  | Ok usage => Ok usage
  | Err _ =>
      match readCgroupV1CPUUsage h with
      | Ok usage => Ok usage
      | Err _ => Err "unable to get CPU usage"
      end
  end.

(** [GetContainerStats]: the pointer and the error, [None] for nil. *)
Definition GetContainerStats (h : Host) : option ContainerStats * option string :=
  let stats :=
    {| CS_MemoryUsage :=
         match getCurrentMemoryUsage h with Ok memUsage => memUsage | Err _ => 0 end;
       CS_CPUUsage :=
         match getCurrentCPUUsage h with Ok cpuUsage => cpuUsage | Err _ => 0%float end |} in
  (Some stats, None).

End Usage.

(** ** The observability layer

    The metrics store of the observability server, the data its exporter
    and health endpoint assemble, and the alert manager.  The HTTP server
    and the encoders are left out; what is embedded is what the functions
    compute before they encode it. *)

Definition Hour : Z := 60 * Minute.

(** [t.Add(d)] and [t.After(u)] on the one clock. *)
Definition time_Add (t d : Z) : Z := t + d.
Definition time_After (t u : Z) : bool := u <? t.

Record ObservabilityConfig : Type := {
  HTTPPort : Z;
  MetricsPath : string;
  EnablePrometheus : bool;
  EnableJSONMetrics : bool;
  MetricsRetention : Z
}.

Definition DefaultObservabilityConfig : ObservabilityConfig :=
  {| HTTPPort := 8080; MetricsPath := "/metrics"; EnablePrometheus := true;
     EnableJSONMetrics := true; MetricsRetention := 24 * Hour |}.

(** [TimestampedMetrics]; its fields [Metrics] and [Timestamp] are
    [TM_Metrics] and [TM_Timestamp]. *)
Record TimestampedMetrics : Type := {
  TM_Metrics : Metrics;
  TM_Timestamp : Z
}.

(** [ObservabilityServer], the fields of its metrics store. *)
Record ObservabilityServer : Type := {
  obs_config : ObservabilityConfig;
  obs_metricsHistory : list TimestampedMetrics;
  maxMetrics : Z
}.

Definition NewObservabilityServer (config : option ObservabilityConfig)
  : ObservabilityServer :=
  let config := match config with None => DefaultObservabilityConfig | Some c => c end in
  {| obs_config := config; obs_metricsHistory := []; maxMetrics := 1000 |}.

(** The retention loop of [recordMetrics]: the history from its first entry
    that is after the cutoff; [None] when the loop ends without a break. *)
Fixpoint from_first_after (cutoff : Z) (history : list TimestampedMetrics)
  : option (list TimestampedMetrics) :=
  match history with
  | [] => None
  | x :: rest =>
      if time_After (TM_Timestamp x) cutoff then Some history
      else from_first_after cutoff rest
  end.

(** [recordMetrics]; [stamp_now] and [cutoff_now] are its two readings of
    [time.Now()]. *)
Definition recordMetrics (obs : ObservabilityServer) (metrics : Metrics)
    (stamp_now cutoff_now : Z) : ObservabilityServer :=
  let timestamped := {| TM_Metrics := metrics; TM_Timestamp := stamp_now |} in
  let history := append_capped (maxMetrics obs) (obs_metricsHistory obs) timestamped in
  let cutoff := time_Add cutoff_now (int_neg (MetricsRetention (obs_config obs))) in
  let history :=
    match from_first_after cutoff history with
    | Some kept => kept
    | None => history
    end in
  {| obs_config := obs_config obs; obs_metricsHistory := history;
     maxMetrics := maxMetrics obs |}.

(** The map [ExportToJSON] hands to the encoder: the current metrics, the
    statistics and the time, read in this order. *)
Record ExportData : Type := {
  export_metrics : Metrics;
  export_stats : Stats;
  export_timestamp : Z
}.

Definition ExportToJSON_data (t : Tuner) (r : Reading) (export_now : Z) (rt : Runtime)
  : ExportData * Runtime :=
  let '(metrics, rt) := GetMetrics t r rt in
  let '(stats, rt) := GetStats t rt in
  ({| export_metrics := metrics; export_stats := stats;
      export_timestamp := export_now |}, rt).

(** The map [handleHealth] encodes; a nil [warnings] entry is [None]. *)
Record Health : Type := {
  health_status : string;
  health_timestamp : Z;
  tuner_running : bool;
  health_warnings : option (list string)
}.

Definition handleHealth (t : Tuner) (health_now : Z) (r : Reading) (rt : Runtime)
  : Health * Runtime :=
  let '(currentMetrics, rt) := GetMetrics t r rt in
  let status := "healthy"%string in
  let warnings := None in
  let '(status, warnings) :=
    if (0.95 <? MemoryPressure currentMetrics)%float
    then ("warning"%string, Some ["High memory pressure"%string])
    else (status, warnings) in
  let '(status, warnings) :=
    if 100 * Millisecond <? GCPauseTime currentMetrics then
      let warnings := match warnings with None => [] | Some w => w end in
      ("warning"%string, Some (warnings ++ ["High GC pause time"%string]))
    else (status, warnings) in
  ({| health_status := status; health_timestamp := health_now;
      tuner_running := running t; health_warnings := warnings |}, rt).

(** *** Alerts *)






(** ** States and runs used in the further properties *)

(** The states a tuner reaches by ticks alone. *)
Inductive ticks_from (t0 : Tuner) : Tuner -> Prop :=
| ticks_none : ticks_from t0 t0
| ticks_more (t : Tuner) (i : TickInput) (rt : Runtime) :
    ticks_from t0 t -> ticks_from t0 (fst (fst (performTuningCycle t i rt))).

(** Among the last four decisions there is a raise, and there is one that
    is not a raise. *)
Definition mixed_directions (recent : list TuningDecision) : Prop :=
  (exists d, In d recent /\ OldGOGC d < NewGOGC d)
  /\ (exists d, In d recent /\ NewGOGC d <= OldGOGC d).

(** A reading with another pause list. *)
Definition with_pauses (pauses : list Z) (r : Reading) : Reading :=
  {| memStats := memStats r; gcStats_Pause := pauses; now := now r |}.

(** The values [calculateConfidence] can take: 1.0 multiplied, in the
    order of the source, by any of 0.7, 0.8, 0.9 and 0.8. *)
Definition confidence_values : list float :=
  flat_map (fun c0 : float =>
    flat_map (fun c1 : float =>
      flat_map (fun c2 : float => [c2; (c2 * 0.8)%float])
               [c1; (c1 * 0.9)%float])
             [c0; (c0 * 0.8)%float])
           [1.0%float; (1.0 * 0.7)%float].

(** The same tick repeated, each time from the same runtime setting. *)
Fixpoint repeat_tick (i : TickInput) (rt : Runtime) (n : nat) (t : Tuner) : Tuner :=
  match n with
  | O => t
  | S n => fst (fst (performTuningCycle (repeat_tick i rt n t) i rt))
  end.

(** A tick that reports one pause of five seconds. *)
Definition tick_long_pause : TickInput :=
  {| reading :=
       {| memStats := {| m_HeapSys := 0; m_HeapAlloc := 0; m_HeapInuse := 0;
                         m_NextGC := 0; m_NumGC := 30 |};
          gcStats_Pause := [5 * Second];
          now := 30 * Second |};
     guard_now := 30 * Second;
     decision_now := 30 * Second |}.

(** Nine such ticks on the fresh tuner, the runtime at -1 as every tick
    leaves it: five decisions are on record. *)
Definition after_nine_ticks : Tuner :=
  repeat_tick tick_long_pause {| gcPercent := -1 |} 9 fresh_tuner.

(** One reading with twelve pauses, the two oldest far larger than the
    rest. *)
Definition reading_twelve_pauses : Reading :=
  {| memStats := {| m_HeapSys := 0; m_HeapAlloc := 0; m_HeapInuse := 0;
                    m_NextGC := 0; m_NumGC := 12 |};
     gcStats_Pause := repeat (2 * Millisecond) 10 ++ [5 * Second; 5 * Second];
     now := 30 * Second |}.

(** A metrics store with the default configuration (retention 24 hours)
    holding two entries stamped at 0 and at 10 nanoseconds. *)
Definition old_entries_server : ObservabilityServer :=
  {| obs_config := DefaultObservabilityConfig;
     obs_metricsHistory :=
       [{| TM_Metrics := zeroMetrics; TM_Timestamp := 0 |};
        {| TM_Metrics := zeroMetrics; TM_Timestamp := 10 |}];
     maxMetrics := 1000 |}.

(** A host with a cgroup v2 mount only, no limit files, and 16 GiB of
    memory in [/proc/meminfo]; it runs as process 1. *)
Definition unified_host : Host :=
  {| Stat := fun _ => false;
     ReadFile := fun path =>
       if String.eqb path "/proc/mounts"
       then Ok ("cgroup2 /sys/fs/cgroup cgroup2 rw,nosuid 0 0" ++ String "010" EmptyString)%string
       else if String.eqb path "/proc/self/cgroup"
       then Ok ("0::/user.slice" ++ String "010" EmptyString)%string
       else if String.eqb path "/proc/meminfo"
       then Ok ("MemTotal:       16777216 kB" ++ String "010"
                ("MemFree:         1000000 kB" ++ String "010" EmptyString))%string
       else if String.eqb path "/sys/fs/cgroup/memory.current"
       then Ok ("104857600" ++ String "010" EmptyString)%string
       else Err "no such file or directory";
     Getpid := 1;
     Getenv := fun _ => EmptyString |}.

(** A line of [/proc/mounts] that does not mount a version 1 cgroup
    hierarchy: its third field, if it has one, is not ["cgroup"]. *)
Definition not_cgroup_v1_mount (line : string) : Prop :=
  nth_error (Fields line) 2 <> Some "cgroup"%string.

(** ** Tactics for machine arithmetic *)

Ltac int_consts :=
  unfold in_int, int_min, int_max in *;
  change (2 ^ 63) with 9223372036854775808 in *;
  change (2 ^ 64) with 18446744073709551616 in *;
  change (2 ^ 31) with 2147483648 in *;
  change (2 ^ 32) with 4294967296 in *.

Ltac wrap_lia := int_consts; Z.div_mod_to_equations; lia.

Ltac ltb_props :=
  repeat match goal with
  | H : (_ <? _) = true |- _ => apply Z.ltb_lt in H
  | H : (_ <? _) = false |- _ => apply Z.ltb_ge in H
  | H : (_ <=? _) = true |- _ => apply Z.leb_le in H
  | H : (_ <=? _) = false |- _ => apply Z.leb_gt in H
  end.

(** * Properties *)

(** ** Machine arithmetic *)

Lemma wrap_int_range (z : Z) : in_int (wrap_int z).
Proof. unfold wrap_int; wrap_lia. Qed.

Lemma wrap_int_id (z : Z) : in_int z -> wrap_int z = z.
Proof. unfold wrap_int; wrap_lia. Qed.

Lemma float64_to_int_range (f : float) : in_int (float64_to_int f).
Proof.
  unfold float64_to_int.
  destruct (float64_trunc f) as [z|]; [|int_consts; lia].
  destruct ((int_min <=? z) && (z <=? int_max)) eqn:E; [|int_consts; lia].
  apply andb_true_iff in E; destruct E as [E1 E2].
  apply Z.leb_le in E1, E2. split; assumption.
Qed.

Lemma calculateTargetGOGC_range (t : Tuner) (m : Metrics) :
  in_int (calculateTargetGOGC t m).
Proof. apply float64_to_int_range. Qed.

(** ** Validation *)

Lemma validateConfig_accepts (c : Config) :
  validateConfig c = None <-> code_accepts c.
Proof.
  unfold validateConfig, code_accepts.
  destruct (MonitorInterval c <? Second) eqn:E1;
  destruct (MinGOGC c <? 10) eqn:E2;
  destruct (1000 <? MinGOGC c) eqn:E3;
  destruct (MaxGOGC c <? MinGOGC c) eqn:E4;
  destruct (2000 <? MaxGOGC c) eqn:E5;
  destruct (TuningAggressiveness c <? 0.1)%float;
  destruct (2.0 <? TuningAggressiveness c)%float;
  destruct (MemoryLimitPercent c <? 0.1)%float;
  destruct (1.0 <? MemoryLimitPercent c)%float;
  cbn [orb];
  rewrite ?Z.ltb_lt, ?Z.ltb_ge in *;
  (split; [ intro H; try discriminate H; repeat split; (lia || reflexivity)
          | intro H; try reflexivity; exfalso;
            destruct H as (?&?&?&?&?&?&?); (lia || discriminate) ]).
Qed.

Lemma valid_bounds (c : Config) :
  validateConfig c = None -> 10 <= MinGOGC c /\ MinGOGC c <= MaxGOGC c /\ MaxGOGC c <= 2000.
Proof. intro H; apply validateConfig_accepts in H; unfold code_accepts in H; lia. Qed.

(** ** The gates of [makeTuningDecision] *)

Lemma bounded_range (t : Tuner) (x : Z) :
  MinGOGC (config t) <= MaxGOGC (config t) ->
  MinGOGC (config t) <= bounded t x <= MaxGOGC (config t).
Proof.
  intro H. unfold bounded.
  destruct (x <? MinGOGC (config t)) eqn:E1.
  - destruct (MaxGOGC (config t) <? MinGOGC (config t)) eqn:E2;
      rewrite ?Z.ltb_lt, ?Z.ltb_ge in *; lia.
  - destruct (MaxGOGC (config t) <? x) eqn:E2;
      rewrite ?Z.ltb_lt, ?Z.ltb_ge in *; lia.
Qed.

(** With fewer than two samples on record no decision is made and the
    tuner is left as it is. *)
Lemma first_samples_no_decision (t : Tuner) (m : Metrics) (g dn : Z) :
  len (metricsHistory t) < 2 ->
  makeTuningDecision t m g dn = (None, t).
Proof.
  intro H. apply Z.ltb_lt in H. unfold makeTuningDecision. rewrite H. reflexivity.
Qed.

(** The zero sample on a fresh tuner, as in the edge-case test. *)
Example zero_sample_no_decision :
  makeTuningDecision (tuner_with DefaultConfig []) zeroMetrics 0 0
  = (None, tuner_with DefaultConfig []).
Proof. apply first_samples_no_decision. reflexivity. Qed.

(** What an emitted decision tells: every gate was passed, the tuner is
    unchanged, and the decision is built from the gated target. *)
Lemma makeTuningDecision_emits (t t' : Tuner) (m : Metrics) (g dn : Z) (d : TuningDecision) :
  makeTuningDecision t m g dn = (Some d, t') ->
  t' = t
  /\ 2 <= len (metricsHistory t)
  /\ shouldSkipDueToOscillation t g = false
  /\ 10 <= abs (int_sub (calculateTargetGOGC t m) (CurrentGOGC m))
  /\ (calculateConfidence t m <? 0.6)%float = false
  /\ OldGOGC d = CurrentGOGC m
  /\ NewGOGC d = bounded t (rate_limited t (CurrentGOGC m) (calculateTargetGOGC t m))
  /\ Confidence d = calculateConfidence t m
  /\ Sample d = m.
Proof.
  unfold makeTuningDecision.
  destruct (len (metricsHistory t) <? 2) eqn:E1; [discriminate|].
  destruct (shouldSkipDueToOscillation t g) eqn:E2; [discriminate|].
  destruct (abs (int_sub (calculateTargetGOGC t m) (CurrentGOGC m)) <? 10) eqn:E3;
    [discriminate|].
  destruct (calculateConfidence t m <? 0.6)%float eqn:E4; [discriminate|].
  intro H; injection H as Hd Ht; subst d t'.
  rewrite Z.ltb_ge in E1, E3. cbn. repeat split; auto.
Qed.

(** The rate limit followed by the clamp, for a current ratio inside the
    bounds: the result stays within [MaxChangePerInterval] of the current
    ratio, and at least 10 away from it when the bounds leave room. *)
Lemma gates_distance (t : Tuner) (c T : Z) :
  10 <= MinGOGC (config t) ->
  MinGOGC (config t) <= MaxGOGC (config t) ->
  MaxGOGC (config t) <= 2000 ->
  0 <= MaxChangePerInterval (config t) <= int_max ->
  in_int T ->
  MinGOGC (config t) <= c <= MaxGOGC (config t) ->
  10 <= abs (int_sub T c) ->
  let N := bounded t (rate_limited t c T) in
  Z.abs (N - c) <= MaxChangePerInterval (config t)
  /\ (10 <= MaxChangePerInterval (config t) ->
      MinGOGC (config t) + 10 <= c <= MaxGOGC (config t) - 10 ->
      10 <= Z.abs (N - c)).
Proof.
  intros Hmin Hmm Hmax Hk HT Hc Habs N. subst N.
  unfold bounded, rate_limited, abs, int_add, int_sub, int_neg, wrap_int in *.
  set (k := MaxChangePerInterval (config t)) in *.
  set (lo := MinGOGC (config t)) in *.
  set (hi := MaxGOGC (config t)) in *.
  int_consts.
  set (change := (T - c + 9223372036854775808) mod 18446744073709551616
                 - 9223372036854775808) in *.
  assert (Hch : change = T - c \/ change = T - c + 18446744073709551616)
    by (subst change; Z.div_mod_to_equations; lia).
  destruct (change <? 0) eqn:Eneg; ltb_props.
  - (* the target is below the current ratio *)
    assert (Hn : (- change + 9223372036854775808) mod 18446744073709551616
                 - 9223372036854775808 = - change) by (Z.div_mod_to_equations; lia).
    rewrite Hn in *.
    destruct (k <? - change) eqn:Ek; ltb_props.
    + destruct (0 <? change) eqn:Epos; ltb_props; [lia|].
      assert (Hs : (c - k + 9223372036854775808) mod 18446744073709551616
                   - 9223372036854775808 = c - k) by (Z.div_mod_to_equations; lia).
      rewrite Hs.
      destruct (c - k <? lo) eqn:E1; ltb_props.
      * destruct (hi <? lo) eqn:E2; ltb_props; lia.
      * destruct (hi <? c - k) eqn:E2; ltb_props; lia.
    + destruct (T <? lo) eqn:E1; ltb_props.
      * destruct (hi <? lo) eqn:E2; ltb_props; lia.
      * destruct (hi <? T) eqn:E2; ltb_props; lia.
  - (* the target is above the current ratio, or the difference wrapped *)
    destruct (k <? change) eqn:Ek; ltb_props.
    + destruct (0 <? change) eqn:Epos; ltb_props; [|lia].
      set (up := (c + k + 9223372036854775808) mod 18446744073709551616
                 - 9223372036854775808) in *.
      assert (Hup : up = c + k
                    \/ (up = c + k - 18446744073709551616
                        /\ 9223372036854775808 <= c + k))
        by (subst up; Z.div_mod_to_equations; lia).
      destruct (up <? lo) eqn:E1; ltb_props.
      * destruct (hi <? lo) eqn:E2; ltb_props; lia.
      * destruct (hi <? up) eqn:E2; ltb_props; lia.
    + destruct (T <? lo) eqn:E1; ltb_props.
      * destruct (hi <? lo) eqn:E2; ltb_props; lia.
      * destruct (hi <? T) eqn:E2; ltb_props; lia.
Qed.

(** ** Reading the current ratio *)

Lemma collectMetrics_runtime (t : Tuner) (r : Reading) (rt : Runtime) :
  snd (collectMetrics t r rt) = {| gcPercent := -1 |}
  /\ CurrentGOGC (fst (collectMetrics t r rt)) = gcPercent rt.
Proof.
  unfold collectMetrics, SetGCPercent.
  destruct (containerResources t) as [cr|].
  - destruct (0 <? CR_MemoryLimit cr); split; reflexivity.
  - split; reflexivity.
Qed.

(** The constructor reads the ratio the same way and then writes it back:
    it leaves the runtime as it found it. *)
Lemma NewTuner_restores_gogc
    (ParseFloat : string -> result float) (Join : list string -> string)
    (c : option Config) (h : Host) (rt : Runtime) :
  -1 <= gcPercent rt < 2 ^ 31 ->
  snd (NewTuner ParseFloat Join c h rt) = rt.
Proof.
  intro Hr. unfold NewTuner.
  destruct (validateConfig _); [reflexivity|].
  cbn. destruct rt as [p]; cbn in *. f_equal.
  unfold wrap_int32.
  destruct ((p + 2 ^ 31) mod 2 ^ 32 - 2 ^ 31 <? 0) eqn:E; ltb_props; wrap_lia.
Qed.

(** C1 (the code breaks it).  Reading the current ratio is not a pure
    observation: [collectMetrics], [GetMetrics] and [GetStats] obtain the
    ratio through [SetGCPercent(-1)] and do not write it back.  Whatever
    the ratio was, the caller receives it and the runtime is left at [-1],
    the setting that turns the collector off. *)
Theorem reading_gogc_turns_collector_off (t : Tuner) (r : Reading) (rt : Runtime) :
  (CurrentGOGC (fst (collectMetrics t r rt)) = gcPercent rt
   /\ gcPercent (snd (collectMetrics t r rt)) = -1)
  /\ (CurrentGOGC (fst (GetMetrics t r rt)) = gcPercent rt
      /\ gcPercent (snd (GetMetrics t r rt)) = -1)
  /\ (current_gogc (fst (GetStats t rt)) = gcPercent rt
      /\ gcPercent (snd (GetStats t rt)) = -1).
Proof.
  unfold GetMetrics.
  destruct (collectMetrics_runtime t r rt) as [Hrt Hcur].
  rewrite Hrt, Hcur. cbn. auto.
Qed.

(** At the default ratio 100: one call of [GetStats] reports 100 and leaves
    -1 behind, so the value after the call differs from the value before. *)
Example GetStats_at_100 :
  let rt := {| gcPercent := 100 |} in
  let '(stats, rt') := GetStats (tuner_with DefaultConfig []) rt in
  current_gogc stats = 100 /\ gcPercent rt' = -1 /\ gcPercent rt' <> gcPercent rt.
Proof. cbn. repeat split. discriminate. Qed.

(** ** Decisions and the clamp bounds *)

Lemma performTuningCycle_emits (t t' : Tuner) (i : TickInput) (rt rt' : Runtime)
    (d : TuningDecision) :
  performTuningCycle t i rt = (t', rt', Some d) ->
  exists t1 d0,
    config t1 = config t
    /\ makeTuningDecision t1 (fst (collectMetrics t (reading i) rt))
         (guard_now i) (decision_now i) = (Some d0, t1)
    /\ applyTuningDecision t1 d0 (snd (collectMetrics t (reading i) rt)) = (t', rt', d).
Proof.
  unfold performTuningCycle.
  destruct (collectMetrics t (reading i) rt) as [metrics rt1] eqn:Ec.
  set (t1 := with_metricsHistory _ t).
  destruct (makeTuningDecision t1 metrics (guard_now i) (decision_now i))
    as [[d0|] t2] eqn:Em; [|discriminate].
  destruct (applyTuningDecision t2 d0 rt1) as [[t3 rt3] applied] eqn:Ea.
  intro H; injection H as -> -> ->.
  pose proof (makeTuningDecision_emits _ _ _ _ _ _ Em) as (-> & _).
  exists t1, d0. cbn. auto.
Qed.

Lemma applyTuningDecision_sets (t t' : Tuner) (d d' : TuningDecision) (rt rt' : Runtime) :
  applyTuningDecision t d rt = (t', rt', d') ->
  0 <= NewGOGC d < 2 ^ 31 ->
  gcPercent rt' = NewGOGC d
  /\ d' = with_OldGOGC (gcPercent rt) d
  /\ config t' = config t
  /\ decisionHistory t' = append_capped (maxDecisions t) (decisionHistory t) d'.
Proof.
  unfold applyTuningDecision, SetGCPercent.
  intro H; injection H as <- <- <-. intro Hn. cbn.
  repeat split.
  unfold wrap_int32.
  destruct ((NewGOGC d + 2 ^ 31) mod 2 ^ 32 - 2 ^ 31 <? 0) eqn:E; ltb_props; wrap_lia.
Qed.

(** The clamp is the last step before a decision is built, and
    [SetGCPercent] stores a value between 10 and 2000 unchanged. *)
Lemma decision_within_bounds (t : Tuner) :
  validateConfig (config t) = None ->
  (forall m g dn d t',
      makeTuningDecision t m g dn = (Some d, t') ->
      MinGOGC (config t) <= NewGOGC d <= MaxGOGC (config t))
  /\ (forall i rt t' rt' d,
      performTuningCycle t i rt = (t', rt', Some d) ->
      MinGOGC (config t) <= NewGOGC d <= MaxGOGC (config t)
      /\ gcPercent rt' = NewGOGC d).
Proof.
  intro Hv. apply valid_bounds in Hv. destruct Hv as (Hlo & Hmm & Hhi).
  assert (Hmake : forall t1 m g dn d t',
             config t1 = config t ->
             makeTuningDecision t1 m g dn = (Some d, t') ->
             MinGOGC (config t) <= NewGOGC d <= MaxGOGC (config t)).
  { intros t1 m g dn d t' Hc Hm.
    apply makeTuningDecision_emits in Hm.
    destruct Hm as (_ & _ & _ & _ & _ & _ & Hnew & _).
    rewrite Hnew, <- Hc. apply bounded_range. rewrite Hc. exact Hmm. }
  split.
  - intros m g dn d t' Hm. exact (Hmake t m g dn d t' eq_refl Hm).
  - intros i rt t' rt' d Hp.
    apply performTuningCycle_emits in Hp.
    destruct Hp as (t1 & d0 & Hc & Hm & Ha).
    pose proof (Hmake _ _ _ _ _ _ Hc Hm) as Hb.
    apply applyTuningDecision_sets in Ha; [|int_consts; lia].
    destruct Ha as (Hrt & -> & _). cbn. rewrite Hrt. auto.
Qed.

(** *** What a tick leaves untouched *)

Lemma makeTuningDecision_frame (t : Tuner) (m : Metrics) (g dn : Z) :
  let t' := snd (makeTuningDecision t m g dn) in
  config t' = config t
  /\ maxHistory t' = maxHistory t
  /\ maxDecisions t' = maxDecisions t
  /\ metricsHistory t' = metricsHistory t
  /\ decisionHistory t' = decisionHistory t.
Proof.
  unfold makeTuningDecision.
  repeat match goal with
         | |- context [if ?b then _ else _] => destruct b
         end; cbn; auto.
Qed.

(** The tuner after a tick: configuration and caps as before, the sample
    appended to the sample history, the applied decision (if any) appended
    to the decision history. *)
Lemma performTuningCycle_frame (t t' : Tuner) (i : TickInput) (rt rt' : Runtime)
    (od : option TuningDecision) :
  performTuningCycle t i rt = (t', rt', od) ->
  config t' = config t
  /\ maxHistory t' = maxHistory t
  /\ maxDecisions t' = maxDecisions t
  /\ metricsHistory t'
     = append_capped (maxHistory t) (metricsHistory t)
                     (fst (collectMetrics t (reading i) rt))
  /\ decisionHistory t'
     = match od with
       | Some d => append_capped (maxDecisions t) (decisionHistory t) d
       | None => decisionHistory t
       end.
Proof.
  unfold performTuningCycle.
  destruct (collectMetrics t (reading i) rt) as [metrics rt1].
  set (t1 := with_metricsHistory _ t).
  pose proof (makeTuningDecision_frame t1 metrics (guard_now i) (decision_now i)) as F.
  destruct (makeTuningDecision t1 metrics (guard_now i) (decision_now i)) as [[d0|] t2];
    cbn in F; destruct F as (F1 & F2 & F3 & F4 & F5).
  - unfold applyTuningDecision, SetGCPercent.
    intro H; injection H as <- <- <-. cbn.
    rewrite F1, F2, F3, F4, F5. cbn. auto.
  - intro H; injection H as <- <- <-. cbn.
    rewrite F1, F2, F3, F4, F5. cbn. auto.
Qed.

Lemma append_capped_Forall {A : Type} (P : A -> Prop) (max : Z) (s : list A) (x : A) :
  Forall P s -> P x -> Forall P (append_capped max s x).
Proof.
  intros Hs Hx. unfold append_capped.
  assert (H : Forall P (s ++ [x])) by (apply Forall_app; auto).
  destruct (max <? len (s ++ [x])); [|exact H].
  destruct (s ++ [x]); [constructor|]. inversion H; assumption.
Qed.

(** Along any run of ticks the configuration is fixed and every recorded
    decision keeps its new ratio inside the bounds. *)
Lemma run_ticks_decisions_bounded (inputs : list TickInput) :
  forall (t : Tuner) (rt : Runtime),
    validateConfig (config t) = None ->
    Forall (fun d => MinGOGC (config t) <= NewGOGC d <= MaxGOGC (config t))
           (decisionHistory t) ->
    let t' := fst (run_ticks t inputs rt) in
    config t' = config t
    /\ Forall (fun d => MinGOGC (config t) <= NewGOGC d <= MaxGOGC (config t))
              (decisionHistory t').
Proof.
  induction inputs as [|i rest IH]; intros t rt Hv Hh; cbn.
  - auto.
  - destruct (performTuningCycle t i rt) as [[t1 rt1] od] eqn:Ep.
    pose proof (performTuningCycle_frame _ _ _ _ _ _ Ep) as (Hc & _ & _ & _ & Hd).
    assert (Hh1 : Forall (fun d => MinGOGC (config t) <= NewGOGC d <= MaxGOGC (config t))
                         (decisionHistory t1)).
    { rewrite Hd. destruct od as [d|]; [|exact Hh].
      apply append_capped_Forall; [exact Hh|].
      exact (proj1 (proj2 (decision_within_bounds t Hv) _ _ _ _ _ Ep)). }
    rewrite <- Hc in Hv, Hh1 |- *.
    exact (IH t1 rt1 Hv Hh1).
Qed.

(** C4.  Under a validated configuration every decision the tuner emits
    carries a new ratio inside the clamp bounds, whatever the sample, the
    history and the ratio the tick starts from; the tick that emits it
    leaves the runtime at exactly that ratio; and along any run of ticks
    the decisions on record stay inside the bounds. *)
Theorem applied_ratio_within_bounds (t : Tuner) :
  validateConfig (config t) = None ->
  (forall m g dn d t',
      makeTuningDecision t m g dn = (Some d, t') ->
      MinGOGC (config t) <= NewGOGC d <= MaxGOGC (config t))
  /\ (forall i rt t' rt' d,
      performTuningCycle t i rt = (t', rt', Some d) ->
      MinGOGC (config t) <= NewGOGC d <= MaxGOGC (config t)
      /\ gcPercent rt' = NewGOGC d)
  /\ (forall inputs rt,
      Forall (fun d => MinGOGC (config t) <= NewGOGC d <= MaxGOGC (config t))
             (decisionHistory t) ->
      Forall (fun d => MinGOGC (config t) <= NewGOGC d <= MaxGOGC (config t))
             (decisionHistory (fst (run_ticks t inputs rt)))).
Proof.
  intro Hv. destruct (decision_within_bounds t Hv) as [H1 H2].
  split; [exact H1|]. split; [exact H2|].
  intros inputs rt Hh.
  exact (proj2 (run_ticks_decisions_bounded inputs t rt Hv Hh)).
Qed.

(** A tick from ratio 795 under the default configuration: the decision
    applied is 800, the upper bound, and the runtime is left there. *)
Lemma applied_ratio_within_bounds_witness :
  validateConfig (config near_max_tuner) = None
  /\ exists t' rt' d,
       performTuningCycle near_max_tuner tick_high_pause {| gcPercent := 795 |}
       = (t', rt', Some d)
       /\ gcPercent rt' = 800
       /\ MinGOGC (config near_max_tuner) <= NewGOGC d <= MaxGOGC (config near_max_tuner)
       /\ gcPercent rt' = NewGOGC d.
Proof.
  assert (Hv : validateConfig (config near_max_tuner) = None)
    by (vm_compute; reflexivity).
  split; [exact Hv|].
  do 3 eexists. split; [vm_compute; reflexivity|].
  split; [reflexivity|].
  refine (proj1 (proj2 (applied_ratio_within_bounds near_max_tuner Hv))
                tick_high_pause {| gcPercent := 795 |} _ _ _ _).
  vm_compute; reflexivity.
Defined.


(** ** The rate limit *)

Lemma valid_DefaultConfig : valid_configuration DefaultConfig.
Proof. unfold valid_configuration. vm_compute. repeat split. Qed.

Lemma valid_config_half : valid_configuration config_half.
Proof. unfold valid_configuration. vm_compute. repeat split. Qed.

(** From ratio 1000, above the upper bound 800: the target 1120 is first
    limited to 1050 and then clamped to 800. *)
Lemma above_max_decision :
  exists d t',
    makeTuningDecision above_max_tuner (high_pause 1000) 0 0 = (Some d, t')
    /\ calculateTargetGOGC above_max_tuner (high_pause 1000) = 1120
    /\ OldGOGC d = 1000 /\ NewGOGC d = 800.
Proof.
  do 2 eexists. split; [vm_compute; reflexivity|].
  split; [vm_compute; reflexivity|]. split; reflexivity.
Qed.

(** C3 as stated fails: with the default configuration (at most 50 per
    tick, bounds 50 and 800) and a current ratio of 1000, the decision
    emitted goes from 1000 to 800, a change of 200. *)
Lemma rate_limit_counterexample :
  ~ (forall (t t' : Tuner) (m : Metrics) (g dn : Z) (d : TuningDecision),
        valid_configuration (config t) ->
        makeTuningDecision t m g dn = (Some d, t') ->
        Z.abs (NewGOGC d - OldGOGC d) <= MaxChangePerInterval (config t)).
Proof.
  intro H.
  destruct above_max_decision as (d & t' & E & _ & Hold & Hnew).
  specialize (H above_max_tuner t' (high_pause 1000) 0 0 d valid_DefaultConfig E).
  rewrite Hold, Hnew in H. vm_compute in H. apply H. reflexivity.
Qed.

(** C3, amended.  When the sample's current ratio lies inside the clamp
    bounds, the decision [makeTuningDecision] emits under a validated
    configuration with a non-negative [MaxChangePerInterval] starts from
    that ratio and moves by at most [MaxChangePerInterval].  (Outside the
    bounds the clamp overrides the rate limit.) *)
Theorem rate_limit_inside_bounds (t t' : Tuner) (m : Metrics) (g dn : Z)
    (d : TuningDecision) :
  validateConfig (config t) = None ->
  0 <= MaxChangePerInterval (config t) <= int_max ->
  MinGOGC (config t) <= CurrentGOGC m <= MaxGOGC (config t) ->
  makeTuningDecision t m g dn = (Some d, t') ->
  OldGOGC d = CurrentGOGC m
  /\ Z.abs (NewGOGC d - OldGOGC d) <= MaxChangePerInterval (config t).
Proof.
  intros Hv Hk Hc Hm.
  apply valid_bounds in Hv. destruct Hv as (Hlo & Hmm & Hhi).
  apply makeTuningDecision_emits in Hm.
  destruct Hm as (_ & _ & _ & Habs & _ & Hold & Hnew & _).
  split; [exact Hold|]. rewrite Hold, Hnew.
  exact (proj1 (gates_distance t (CurrentGOGC m) (calculateTargetGOGC t m)
                  Hlo Hmm Hhi Hk (calculateTargetGOGC_range t m) Hc Habs)).
Qed.

(** From ratio 400 with aggressiveness 0.5 the target is 480; the decision
    emitted is 400 to 450, exactly [MaxChangePerInterval] away. *)
Lemma rate_limit_inside_bounds_witness :
  exists d t',
    makeTuningDecision mid_range_tuner (high_pause 400) 0 0 = (Some d, t')
    /\ NewGOGC d = 450
    /\ OldGOGC d = CurrentGOGC (high_pause 400)
    /\ Z.abs (NewGOGC d - OldGOGC d) <= MaxChangePerInterval (config mid_range_tuner).
Proof.
  assert (Hv : validateConfig (config mid_range_tuner) = None)
    by (vm_compute; reflexivity).
  assert (Hk : 0 <= MaxChangePerInterval (config mid_range_tuner) <= int_max)
    by (vm_compute; split; discriminate).
  assert (Hc : MinGOGC (config mid_range_tuner) <= CurrentGOGC (high_pause 400)
               <= MaxGOGC (config mid_range_tuner))
    by (vm_compute; split; discriminate).
  do 2 eexists. split; [vm_compute; reflexivity|]. split; [reflexivity|].
  refine (rate_limit_inside_bounds mid_range_tuner _ (high_pause 400) 0 0 _ Hv Hk Hc _).
  vm_compute; reflexivity.
Defined.

(** ** The minimum-change gate *)

(** From ratio 795 the target is 890: limited to 845, clamped to 800. *)
Lemma near_max_decision :
  exists d t',
    makeTuningDecision near_max_tuner (high_pause 795) 0 0 = (Some d, t')
    /\ calculateTargetGOGC near_max_tuner (high_pause 795) = 890
    /\ OldGOGC d = 795 /\ NewGOGC d = 800.
Proof.
  do 2 eexists. split; [vm_compute; reflexivity|].
  split; [vm_compute; reflexivity|]. split; reflexivity.
Qed.

(** C2 as stated fails: five below the upper bound, with the pause well
    over the target, the decision emitted goes from 795 to 800. *)
Lemma minimum_change_counterexample :
  ~ (forall (t t' : Tuner) (m : Metrics) (g dn : Z) (d : TuningDecision),
        valid_configuration (config t) ->
        makeTuningDecision t m g dn = (Some d, t') ->
        10 <= Z.abs (NewGOGC d - OldGOGC d)).
Proof.
  intro H.
  destruct near_max_decision as (d & t' & E & _ & Hold & Hnew).
  specialize (H near_max_tuner t' (high_pause 795) 0 0 d valid_DefaultConfig E).
  rewrite Hold, Hnew in H. vm_compute in H. apply H. reflexivity.
Qed.

(** C2, amended.  For every decision [makeTuningDecision] emits, the target
    computed by the control law, before the rate limit and the clamp, is at
    least 10 away from the current ratio (in the 64-bit arithmetic of the
    source); and the emitted change itself is at least 10 when the
    configuration is validated, [MaxChangePerInterval] is at least 10, and
    the current ratio is at least 10 inside both bounds. *)
Theorem minimum_change_gate (t t' : Tuner) (m : Metrics) (g dn : Z)
    (d : TuningDecision) :
  makeTuningDecision t m g dn = (Some d, t') ->
  10 <= abs (int_sub (calculateTargetGOGC t m) (CurrentGOGC m))
  /\ (validateConfig (config t) = None ->
      10 <= MaxChangePerInterval (config t) <= int_max ->
      MinGOGC (config t) + 10 <= CurrentGOGC m <= MaxGOGC (config t) - 10 ->
      10 <= Z.abs (NewGOGC d - OldGOGC d)).
Proof.
  intro Hm.
  apply makeTuningDecision_emits in Hm.
  destruct Hm as (_ & _ & _ & Habs & _ & Hold & Hnew & _).
  split; [exact Habs|].
  intros Hv Hk Hc.
  apply valid_bounds in Hv. destruct Hv as (Hlo & Hmm & Hhi).
  rewrite Hold, Hnew.
  assert (Hk0 : 0 <= MaxChangePerInterval (config t) <= int_max) by lia.
  assert (Hc0 : MinGOGC (config t) <= CurrentGOGC m <= MaxGOGC (config t)) by lia.
  apply (proj2 (gates_distance t (CurrentGOGC m) (calculateTargetGOGC t m)
                  Hlo Hmm Hhi Hk0 (calculateTargetGOGC_range t m) Hc0 Habs)); lia.
Qed.

(** The decision 400 to 450 again: the target 480 is 80 away, the emitted
    change is 50. *)
Lemma minimum_change_gate_witness :
  exists d t',
    makeTuningDecision mid_range_tuner (high_pause 400) 0 0 = (Some d, t')
    /\ 10 <= abs (int_sub (calculateTargetGOGC mid_range_tuner (high_pause 400))
                          (CurrentGOGC (high_pause 400)))
    /\ 10 <= Z.abs (NewGOGC d - OldGOGC d).
Proof.
  assert (Hv : validateConfig (config mid_range_tuner) = None)
    by (vm_compute; reflexivity).
  assert (Hk : 10 <= MaxChangePerInterval (config mid_range_tuner) <= int_max)
    by (vm_compute; split; discriminate).
  assert (Hc : MinGOGC (config mid_range_tuner) + 10 <= CurrentGOGC (high_pause 400)
               <= MaxGOGC (config mid_range_tuner) - 10)
    by (vm_compute; split; discriminate).
  do 2 eexists. split; [vm_compute; reflexivity|].
  assert (Hm : makeTuningDecision mid_range_tuner (high_pause 400) 0 0 = (_, _))
    by (vm_compute; reflexivity).
  pose proof (minimum_change_gate mid_range_tuner _ (high_pause 400) 0 0 _ Hm) as [H1 H2].
  split; [exact H1 | exact (H2 Hv Hk Hc)].
Defined.

(** ** The control law *)

(** With no pause recorded the source takes the [else] branch of the
    latency factor and divides the target latency by zero. *)
Lemma latencyFactor_zero_pause (t : Tuner) (m : Metrics) :
  GCPauseTime m = 0 ->
  0 <= TargetLatency (config t) ->
  latencyFactor t m
  = (1.0 - (float64_of_Z (TargetLatency (config t)) / 0 - 1.0)
           * TuningAggressiveness (config t) * 0.5)%float.
Proof.
  intros Hp Ht. unfold latencyFactor. rewrite Hp.
  destruct (TargetLatency (config t) <? 0) eqn:E; ltb_props; [lia|].
  reflexivity.
Qed.

(** C5 (the code breaks it).  With a pause of 0 and the default
    configuration the latency factor is not 1: the division by the pause
    is carried out and gives an infinite ratio.  The latency factor and the
    smoothed factor are minus infinity, the conversion to [int] yields the
    most negative integer, the difference to the current ratio wraps, and
    the decision emitted raises the ratio from 100 to 150. *)
Theorem zero_pause_divides_by_zero :
  GCPauseTime no_pause = 0
  /\ (float64_of_Z (TargetLatency (config no_pause_tuner))
      / float64_of_Z (GCPauseTime no_pause))%float = infinity
  /\ latencyFactor no_pause_tuner no_pause = neg_infinity
  /\ latencyFactor no_pause_tuner no_pause <> 1%float
  /\ smoothedFactor no_pause_tuner no_pause = neg_infinity
  /\ calculateTargetGOGC no_pause_tuner no_pause = int_min
  /\ exists d t',
       makeTuningDecision no_pause_tuner no_pause 0 0 = (Some d, t')
       /\ OldGOGC d = 100 /\ NewGOGC d = 150.
Proof.
  split; [reflexivity|].
  split; [vm_compute; reflexivity|].
  split; [vm_compute; reflexivity|].
  split; [vm_compute; discriminate|].
  split; [vm_compute; reflexivity|].
  split; [vm_compute; reflexivity|].
  do 2 eexists. split; [vm_compute; reflexivity|]. split; reflexivity.
Qed.

(** C6.  With aggressiveness 0.5, a target latency of 10 ms, a pause of
    50 ms, memory pressure 0.5, one collection per second and a current
    ratio of 100: the latency factor is 3, the memory and frequency factors
    are 1, the combined factor is 5/3, the smoothed factor is 1.2 and the
    target ratio is 120, above 100. *)
Theorem control_law_raises_on_high_pause (t : Tuner) (m : Metrics) :
  TuningAggressiveness (config t) = 0.5%float ->
  TargetLatency (config t) = 10 * Millisecond ->
  GCPauseTime m = 50 * Millisecond ->
  MemoryPressure m = 0.5%float ->
  GCFrequency m = 1%float ->
  CurrentGOGC m = 100 ->
  latencyFactor t m = 3%float
  /\ memoryFactor t m = 1%float
  /\ frequencyFactor t m = 1%float
  /\ combinedFactor t m = (5 / 3)%float
  /\ smoothedFactor t m = 1.2%float
  /\ calculateTargetGOGC t m = 120
  /\ 100 < calculateTargetGOGC t m.
Proof.
  intros Ha Ht Hp Hm Hf Hc.
  assert (HL : latencyFactor t m = 3%float)
    by (unfold latencyFactor; rewrite Ha, Ht, Hp; vm_compute; reflexivity).
  assert (HM : memoryFactor t m = 1%float)
    by (unfold memoryFactor; rewrite Hm; vm_compute; reflexivity).
  assert (HF : frequencyFactor t m = 1%float)
    by (unfold frequencyFactor; rewrite Hf; vm_compute; reflexivity).
  assert (HC : combinedFactor t m = (5 / 3)%float)
    by (unfold combinedFactor; rewrite HL, HM, HF; vm_compute; reflexivity).
  assert (HS : smoothedFactor t m = 1.2%float)
    by (unfold smoothedFactor; rewrite HC; vm_compute; reflexivity).
  assert (HT : calculateTargetGOGC t m = 120)
    by (unfold calculateTargetGOGC; rewrite HS, Hc; vm_compute; reflexivity).
  repeat split; try assumption. rewrite HT. reflexivity.
Qed.

Lemma control_law_raises_on_high_pause_witness :
  calculateTargetGOGC scenario_tuner (high_pause 100) = 120
  /\ 100 < calculateTargetGOGC scenario_tuner (high_pause 100).
Proof.
  pose proof (control_law_raises_on_high_pause scenario_tuner (high_pause 100)
                eq_refl eq_refl eq_refl eq_refl eq_refl eq_refl)
    as (_ & _ & _ & _ & _ & H1 & H2).
  split; [exact H1 | exact H2].
Defined.

(** ** Validation by the constructor *)

Lemma spec_accepts_config_high_min : spec_accepts config_high_min.
Proof. unfold spec_accepts. vm_compute. repeat split; discriminate. Qed.

(** C7 as stated fails in both directions.  A configuration whose target
    latency, stabilization window and change cap are all 0 passes
    [validateConfig], and the constructor builds a tuner from it; and a
    configuration that meets every row of the table with bounds 1500 and
    1800 is rejected, because the minimum may not exceed 1000. *)
Lemma validation_table_counterexample :
  (TargetLatency config_zeroes <= 0
   /\ StabilizationWindow config_zeroes <= 0
   /\ MaxChangePerInterval config_zeroes <= 0
   /\ validateConfig config_zeroes = None
   /\ ~ spec_accepts config_zeroes)
  /\ (spec_accepts config_high_min
      /\ validateConfig config_high_min
         = Some "min GOGC must be between 10 and 1000"%string).
Proof.
  split.
  - repeat split; try (vm_compute; discriminate).
    intros (_ & _ & _ & _ & H & _). vm_compute in H. discriminate.
  - split; [exact spec_accepts_config_high_min | vm_compute; reflexivity].
Qed.

(** C7, amended.  [validateConfig], and with it the constructor, accepts
    exactly the configurations with a monitor interval of at least one
    second, 10 <= MinGOGC <= 1000, MinGOGC <= MaxGOGC <= 2000, an
    aggressiveness neither below 0.1 nor above 2.0 and a memory percent
    neither below 0.1 nor above 1.0; the target latency, the stabilization
    window and the change cap are not examined. *)
Theorem constructor_accepts
    (ParseFloat : string -> result float) (Join : list string -> string)
    (c : Config) (h : Host) (rt : Runtime) :
  (validateConfig c = None <-> code_accepts c)
  /\ ((exists t, fst (NewTuner ParseFloat Join (Some c) h rt) = Ok t) <-> code_accepts c)
  /\ (forall latency window change,
         validateConfig (with_unchecked latency window change c) = validateConfig c).
Proof.
  split; [apply validateConfig_accepts|]. split.
  - rewrite <- validateConfig_accepts. unfold NewTuner.
    destruct (validateConfig c) as [e|]; cbn.
    + split; [intros [t H]; discriminate | discriminate].
    + split; [reflexivity | intros _; eexists; reflexivity].
  - intros. reflexivity.
Qed.

(** ** The history buffers *)

Lemma len_app_one {A : Type} (s : list A) (x : A) : len (s ++ [x]) = len s + 1.
Proof. unfold len. rewrite List.length_app. cbn [List.length]. lia. Qed.

Lemma len_cons {A : Type} (a : A) (s : list A) : len (a :: s) = len s + 1.
Proof. unfold len. cbn [List.length]. lia. Qed.

Lemma append_capped_len {A : Type} (max : Z) (s : list A) (x : A) :
  len s <= max -> 0 <= max -> len (append_capped max s x) <= max.
Proof.
  intros Hs Hmax. unfold append_capped.
  destruct (max <? len (s ++ [x])) eqn:E; ltb_props; [|exact E].
  destruct s as [|a s]; cbn [app tl].
  - exact Hmax.
  - rewrite len_app_one. rewrite len_cons in Hs. exact Hs.
Qed.

Lemma append_capped_evicts {A : Type} (max : Z) (oldest : A) (rest : list A) (x : A) :
  len (oldest :: rest) = max ->
  append_capped max (oldest :: rest) x = rest ++ [x].
Proof.
  intro H. unfold append_capped.
  destruct (max <? len ((oldest :: rest) ++ [x])) eqn:E; ltb_props.
  - reflexivity.
  - rewrite len_app_one in E. lia.
Qed.

Lemma append_capped_room {A : Type} (max : Z) (s : list A) (x : A) :
  len s < max -> append_capped max s x = s ++ [x].
Proof.
  intro H. unfold append_capped.
  destruct (max <? len (s ++ [x])) eqn:E; ltb_props.
  - rewrite len_app_one in E. lia.
  - reflexivity.
Qed.

(** The caps and the two length bounds hold for every state of a tuner
    that [NewTuner] built. *)
Lemma evolves_capped (t0 t : Tuner) :
  maxHistory t0 = 100 -> maxDecisions t0 = 50 ->
  len (metricsHistory t0) <= 100 -> len (decisionHistory t0) <= 50 ->
  evolves t0 t ->
  maxHistory t = 100 /\ maxDecisions t = 50
  /\ len (metricsHistory t) <= 100 /\ len (decisionHistory t) <= 50.
Proof.
  intros H1 H2 H3 H4 He. induction He as [|t i rt He IH|t d rt He IH].
  - auto.
  - destruct IH as (I1 & I2 & I3 & I4).
    destruct (performTuningCycle t i rt) as [[t1 rt1] od] eqn:Ep. cbn.
    apply performTuningCycle_frame in Ep.
    destruct Ep as (_ & F2 & F3 & F4 & F5).
    rewrite F2, F3, F4, F5, I1, I2.
    repeat split; try reflexivity.
    + apply append_capped_len; lia.
    + destruct od; [apply append_capped_len; lia | exact I4].
  - destruct IH as (I1 & I2 & I3 & I4).
    unfold applyTuningDecision, SetGCPercent. cbn. rewrite I2.
    repeat split; auto. apply append_capped_len; lia.
Qed.

Lemma NewTuner_fresh
    (ParseFloat : string -> result float) (Join : list string -> string)
    (c : option Config) (h : Host) (rt rt0 : Runtime) (t0 : Tuner) :
  NewTuner ParseFloat Join c h rt = (Ok t0, rt0) ->
  maxHistory t0 = 100 /\ maxDecisions t0 = 50
  /\ metricsHistory t0 = [] /\ decisionHistory t0 = [].
Proof.
  unfold NewTuner. destruct (validateConfig _); [discriminate|].
  cbn. intro H; injection H as <- _. cbn. auto.
Qed.

(** C8.  In every state of a tuner built by the constructor, after any
    sequence of ticks and applied decisions, the sample history holds at
    most 100 entries and the decision history at most 50.  Each tick
    appends its sample, and each applied decision is appended, through the
    same capped append: below the cap the entry is added at the end; at the
    cap the oldest entry is dropped and the others keep their order, the
    new entry last. *)
Theorem histories_capped :
  (forall ParseFloat Join c h rt rt0 t0 t,
      NewTuner ParseFloat Join c h rt = (Ok t0, rt0) ->
      evolves t0 t ->
      len (metricsHistory t) <= 100 /\ len (decisionHistory t) <= 50)
  /\ (forall ParseFloat Join c h rt rt0 t0 t i rt1 t' rt' od,
      NewTuner ParseFloat Join c h rt = (Ok t0, rt0) ->
      evolves t0 t ->
      performTuningCycle t i rt1 = (t', rt', od) ->
      metricsHistory t'
      = append_capped 100 (metricsHistory t) (fst (collectMetrics t (reading i) rt1))
      /\ decisionHistory t'
         = match od with
           | Some d => append_capped 50 (decisionHistory t) d
           | None => decisionHistory t
           end)
  /\ (forall (A : Type) (max : Z) (oldest : A) (rest : list A) (x : A),
      len (oldest :: rest) = max ->
      append_capped max (oldest :: rest) x = rest ++ [x])
  /\ (forall (A : Type) (max : Z) (s : list A) (x : A),
      len s < max -> append_capped max s x = s ++ [x]).
Proof.
  split; [|split; [|split]].
  - intros pf jn c h rt rt0 t0 t Hn He.
    apply NewTuner_fresh in Hn. destruct Hn as (N1 & N2 & N3 & N4).
    apply (evolves_capped t0 t N1 N2) in He.
    + tauto.
    + rewrite N3. cbn. lia.
    + rewrite N4. cbn. lia.
  - intros pf jn c h rt rt0 t0 t i rt1 t' rt' od Hn He Hp.
    apply NewTuner_fresh in Hn. destruct Hn as (N1 & N2 & N3 & N4).
    apply (evolves_capped t0 t N1 N2) in He;
      [|rewrite N3; cbn; lia|rewrite N4; cbn; lia].
    destruct He as (I1 & I2 & _).
    apply performTuningCycle_frame in Hp.
    destruct Hp as (_ & _ & _ & F4 & F5).
    rewrite F4, F5, I1, I2. split; reflexivity.
  - intros. apply append_capped_evicts. assumption.
  - intros. apply append_capped_room. assumption.
Qed.

(** A fresh default tuner after one tick holds one sample and no decision;
    and a buffer of three at cap three drops its oldest entry. *)
Lemma histories_capped_witness :
  (NewTuner decimal_ParseFloat slash_Join None limited_host {| gcPercent := 100 |}
   = (Ok fresh_tuner, {| gcPercent := 100 |})
   /\ len (metricsHistory
             (fst (fst (performTuningCycle fresh_tuner tick_high_pause
                                           {| gcPercent := 100 |})))) = 1
   /\ (len (metricsHistory
              (fst (fst (performTuningCycle fresh_tuner tick_high_pause
                                            {| gcPercent := 100 |})))) <= 100
       /\ len (decisionHistory
                 (fst (fst (performTuningCycle fresh_tuner tick_high_pause
                                               {| gcPercent := 100 |})))) <= 50))
  /\ append_capped 3 [1; 2; 3] 4 = [2; 3; 4]
  /\ append_capped 3 [1; 2] 3 = [1; 2; 3].
Proof.
  destruct histories_capped as (H1 & _ & H3 & H4).
  assert (En : NewTuner decimal_ParseFloat slash_Join None limited_host
                        {| gcPercent := 100 |}
               = (Ok fresh_tuner, {| gcPercent := 100 |}))
    by (vm_compute; reflexivity).
  split; [|split].
  - split; [exact En|]. split; [vm_compute; reflexivity|].
    exact (H1 decimal_ParseFloat slash_Join None limited_host
              {| gcPercent := 100 |} {| gcPercent := 100 |} fresh_tuner _ En
              (evolves_tick fresh_tuner fresh_tuner tick_high_pause
                            {| gcPercent := 100 |} (evolves_start fresh_tuner))).
  - exact (H3 Z 3 1 [2; 3] 4 eq_refl).
  - exact (H4 Z 3 [1; 2] 3 eq_refl).
Defined.

(** ** The container prober *)

Lemma signals_absent_not_container (h : Host) :
  signals_absent h -> isRunningInContainer h = false.
Proof.
  intros (Hstat & Hcg & Hpid & Henv). unfold isRunningInContainer.
  rewrite Hstat.
  assert (Hc : match ReadFile h "/proc/1/cgroup" with
               | Ok content =>
                   Contains content "docker" || Contains content "kubepods"
                   || Contains content "containerd"
               | Err _ => false
               end = false).
  { destruct (ReadFile h "/proc/1/cgroup") as [content|e]; [|reflexivity].
    destruct Hcg as (-> & -> & ->). reflexivity. }
  rewrite Hc.
  destruct (Getpid h =? 1) eqn:E; [apply Z.eqb_eq in E; contradiction|].
  rewrite Henv. reflexivity.
Qed.

(** C9.  [DetectContainerResources] returns a nil error and a
    [ContainerResources] value on every host, whatever the files, the
    process id and the environment hold and whatever the two library
    functions do.  When none of the four containerization signals is
    present the value is the zero value: no limit is resolved, both limits
    are 0, whatever the cgroup files contain. *)
Theorem prober_never_fails
    (ParseFloat : string -> result float) (Join : list string -> string) (h : Host) :
  snd (DetectContainerResources ParseFloat Join h) = None
  /\ (exists r, fst (DetectContainerResources ParseFloat Join h) = Some r)
  /\ (signals_absent h ->
      isRunningInContainer h = false
      /\ fst (DetectContainerResources ParseFloat Join h)
         = Some {| CR_MemoryLimit := 0; CR_CPULimit := 0%float; IsContainer := false |}).
Proof.
  split; [reflexivity|]. split; [eexists; reflexivity|].
  intro Hs. apply signals_absent_not_container in Hs.
  split; [exact Hs|].
  unfold DetectContainerResources. rewrite Hs. reflexivity.
Qed.

Lemma limited_host_signals_absent : signals_absent limited_host.
Proof.
  unfold signals_absent. cbn.
  repeat split; try reflexivity. discriminate.
Qed.

(** On [limited_host] the memory resolution would find 512 MiB and the CPU
    resolution half a core; the prober, seeing no signal, reports 0 and 0. *)
Lemma prober_never_fails_witness :
  signals_absent limited_host
  /\ detectMemoryLimit slash_Join limited_host = Ok 536870912
  /\ detectCPULimit decimal_ParseFloat slash_Join limited_host = Ok 0.5%float
  /\ (isRunningInContainer limited_host = false
      /\ fst (DetectContainerResources decimal_ParseFloat slash_Join limited_host)
         = Some {| CR_MemoryLimit := 0; CR_CPULimit := 0%float; IsContainer := false |}).
Proof.
  split; [exact limited_host_signals_absent|].
  split; [vm_compute; reflexivity|].
  split; [vm_compute; reflexivity|].
  exact (proj2 (proj2 (prober_never_fails decimal_ParseFloat slash_Join limited_host))
               limited_host_signals_absent).
Defined.

(** ** Confidence with a short history *)

Lemma confidence_short_history (t : Tuner) (m : Metrics) :
  len (metricsHistory t) < 5 ->
  extreme_pressure (MemoryPressure m) = true ->
  (calculateConfidence t m <=? 0.56)%float = true
  /\ (calculateConfidence t m <? 0.6)%float = true.
Proof.
  intros Hlen Hp. unfold extreme_pressure in Hp. unfold calculateConfidence.
  apply Z.ltb_lt in Hlen. rewrite Hlen, Hp.
  destruct (3 <=? len (metricsHistory t));
    [destruct (0.3 <? calculateVariation _ _)%float|];
    destruct ((CurrentGOGC m <=? int_add (MinGOGC (config t)) 20)
              || (int_sub (MaxGOGC (config t)) 20 <=? CurrentGOGC m));
    vm_compute; split; reflexivity.
Qed.

Lemma low_confidence_no_decision (t : Tuner) (m : Metrics) (g dn : Z) :
  (calculateConfidence t m <? 0.6)%float = true ->
  fst (makeTuningDecision t m g dn) = None.
Proof.
  intro Hc. unfold makeTuningDecision.
  destruct (len (metricsHistory t) <? 2); [reflexivity|].
  destruct (shouldSkipDueToOscillation t g); [reflexivity|].
  destruct (abs _ <? 10); [reflexivity|].
  rewrite Hc. reflexivity.
Qed.

Lemma pressure_zero_without_limit (t : Tuner) (r : Reading) (rt : Runtime) :
  no_known_limit t ->
  MemoryPressure (fst (collectMetrics t r rt)) = 0%float.
Proof.
  unfold no_known_limit, collectMetrics, SetGCPercent.
  destruct (containerResources t) as [cr|]; [|reflexivity].
  intros ->. reflexivity.
Qed.

(** With a memory pressure of exactly 0.05 and two samples of history the
    confidence is 0.7 and a decision from 100 to 113 is emitted. *)
Lemma edge_decision :
  exists d t',
    makeTuningDecision edge_tuner edge_sample 0 0 = (Some d, t')
    /\ OldGOGC d = 100 /\ NewGOGC d = 113 /\ Confidence d = 0.7%float.
Proof.
  do 2 eexists. split; [vm_compute; reflexivity|]. repeat split.
Qed.

(** C10 as stated fails at the edge of the interval: a memory pressure of
    0.05 is not inside the open interval from 0.05 to 0.95, the history
    holds two samples, and yet the confidence is 0.7, above 0.56, and a
    decision is emitted. *)
Lemma edge_pressure_counterexample :
  ~ (forall (t : Tuner) (m : Metrics) (g dn : Z),
        valid_configuration (config t) ->
        len (metricsHistory t) < 5 ->
        outside_open_interval (MemoryPressure m) = true ->
        (calculateConfidence t m <=? 0.56)%float = true
        /\ fst (makeTuningDecision t m g dn) = None).
Proof.
  intro H.
  assert (Hlen : len (metricsHistory edge_tuner) < 5) by reflexivity.
  assert (Hout : outside_open_interval (MemoryPressure edge_sample) = true)
    by (vm_compute; reflexivity).
  destruct (H edge_tuner edge_sample 0 0 valid_DefaultConfig Hlen Hout) as [Hc _].
  vm_compute in Hc. discriminate Hc.
Qed.

(** C10, amended.  While the sample history holds fewer than 5 entries,
    for every sample whose memory pressure is strictly below 0.05 or
    strictly above 0.95 (as the source compares them), and so in particular
    for a memory pressure of 0, the confidence is at most 0.56, below 0.6,
    and [makeTuningDecision] emits no decision, whatever the pause, the
    frequency and the current ratio.  A memory pressure of 0 is what
    [collectMetrics] reports when no container memory limit is known. *)
Theorem short_history_no_decision :
  (forall (t : Tuner) (m : Metrics) (g dn : Z),
      len (metricsHistory t) < 5 ->
      extreme_pressure (MemoryPressure m) = true ->
      (calculateConfidence t m <=? 0.56)%float = true
      /\ (calculateConfidence t m <? 0.6)%float = true
      /\ fst (makeTuningDecision t m g dn) = None)
  /\ (forall (t : Tuner) (m : Metrics) (g dn : Z),
      len (metricsHistory t) < 5 ->
      MemoryPressure m = 0%float ->
      (calculateConfidence t m <=? 0.56)%float = true
      /\ (calculateConfidence t m <? 0.6)%float = true
      /\ fst (makeTuningDecision t m g dn) = None)
  /\ (forall (t : Tuner) (r : Reading) (rt : Runtime),
      no_known_limit t ->
      MemoryPressure (fst (collectMetrics t r rt)) = 0%float).
Proof.
  assert (G : forall (t : Tuner) (m : Metrics) (g dn : Z),
             len (metricsHistory t) < 5 ->
             extreme_pressure (MemoryPressure m) = true ->
             (calculateConfidence t m <=? 0.56)%float = true
             /\ (calculateConfidence t m <? 0.6)%float = true
             /\ fst (makeTuningDecision t m g dn) = None).
  { intros t m g dn Hlen Hp.
    destruct (confidence_short_history t m Hlen Hp) as [H1 H2].
    repeat split; try assumption.
    apply low_confidence_no_decision. exact H2. }
  split; [exact G|]. split.
  - intros t m g dn Hlen Hz. apply G; [exact Hlen|].
    rewrite Hz. vm_compute. reflexivity.
  - exact pressure_zero_without_limit.
Qed.

(** Four samples of history and a memory pressure of 0: no decision,
    although the pause is five times the target. *)
Lemma short_history_no_decision_witness :
  len (metricsHistory unlimited_tuner) = 4
  /\ MemoryPressure unlimited_sample = 0%float
  /\ calculateConfidence unlimited_tuner unlimited_sample = (1.0 * 0.7 * 0.8)%float
  /\ ((calculateConfidence unlimited_tuner unlimited_sample <=? 0.56)%float = true
      /\ (calculateConfidence unlimited_tuner unlimited_sample <? 0.6)%float = true
      /\ fst (makeTuningDecision unlimited_tuner unlimited_sample 0 0) = None).
Proof.
  split; [reflexivity|]. split; [reflexivity|].
  split; [vm_compute; reflexivity|].
  assert (Hlen : len (metricsHistory unlimited_tuner) < 5) by reflexivity.
  exact (proj1 (proj2 short_history_no_decision)
               unlimited_tuner unlimited_sample 0 0 Hlen eq_refl).
Defined.

(** ** The runtime between ticks *)

(** A tick that applies no decision leaves the collector switched off: the
    setting read by [collectMetrics] is not written back by anything. *)
Lemma tick_without_decision (t t' : Tuner) (i : TickInput) (rt rt' : Runtime) :
  performTuningCycle t i rt = (t', rt', None) ->
  gcPercent rt' = -1.
Proof.
  unfold performTuningCycle.
  pose proof (collectMetrics_runtime t (reading i) rt) as [Hrt _].
  destruct (collectMetrics t (reading i) rt) as [metrics rt1]. cbn in Hrt.
  destruct (makeTuningDecision _ metrics (guard_now i) (decision_now i)) as [[d0|] t2].
  - destruct (applyTuningDecision t2 d0 rt1) as [[t3 rt3] applied]. discriminate.
  - intro H; injection H as _ <-. rewrite Hrt. reflexivity.
Qed.

(** A tick that applies a decision records as its old ratio the [-1] left
    by [collectMetrics], not the ratio the sample reports. *)
Lemma tick_records_old_ratio (t t' : Tuner) (i : TickInput) (rt rt' : Runtime)
    (d : TuningDecision) :
  performTuningCycle t i rt = (t', rt', Some d) ->
  OldGOGC d = -1 /\ CurrentGOGC (Sample d) = gcPercent rt.
Proof.
  intro Hp. apply performTuningCycle_emits in Hp.
  destruct Hp as (t1 & d0 & _ & Hm & Ha).
  pose proof (collectMetrics_runtime t (reading i) rt) as [Hrt Hcur].
  apply makeTuningDecision_emits in Hm.
  destruct Hm as (_ & _ & _ & _ & _ & _ & _ & _ & Hs).
  rewrite Hrt in Ha. unfold applyTuningDecision, SetGCPercent in Ha.
  injection Ha as _ _ <-. unfold with_OldGOGC. cbn [OldGOGC Sample gcPercent].
  rewrite Hs. auto.
Qed.

(** * Further properties of the tuner *)

(** ** Construction *)

Lemma NewTuner_valid
    (ParseFloat : string -> result float) (Join : list string -> string)
    (c : option Config) (h : Host) (rt rt0 : Runtime) (t0 : Tuner) :
  NewTuner ParseFloat Join c h rt = (Ok t0, rt0) ->
  validateConfig (config t0) = None.
Proof.
  unfold NewTuner.
  destruct (validateConfig (match c with None => DefaultConfig | Some c0 => c0 end)) eqn:E;
    [discriminate|].
  cbn. intro H; injection H as <- _. exact E.
Qed.

(** X1.  On a configuration that passes validation the constructor returns
    a tuner that holds the configuration, is not running, has empty
    histories with caps 100 and 50, remembers the runtime's current ratio as
    [lastGOGC] and holds the prober's result; the runtime's ratio is the
    same after the call as before.  On a configuration that fails
    validation it returns the validation message behind the prefix
    "invalid config: " and does not touch the runtime. *)
Theorem NewTuner_postcondition
    (ParseFloat : string -> result float) (Join : list string -> string)
    (c : option Config) (h : Host) (rt : Runtime) :
  let cfg := match c with None => DefaultConfig | Some c0 => c0 end in
  (validateConfig cfg = None ->
   -1 <= gcPercent rt < 2 ^ 31 ->
   exists t,
     NewTuner ParseFloat Join c h rt = (Ok t, rt)
     /\ config t = cfg /\ running t = false
     /\ metricsHistory t = [] /\ decisionHistory t = []
     /\ maxHistory t = 100 /\ maxDecisions t = 50
     /\ lastGOGC t = gcPercent rt
     /\ containerResources t = fst (DetectContainerResources ParseFloat Join h)
     /\ totalDecisions t = 0 /\ stabilityCount t = 0)
  /\ (forall msg,
       validateConfig cfg = Some msg ->
       NewTuner ParseFloat Join c h rt = (Err ("invalid config: " ++ msg)%string, rt)).
Proof.
  intro cfg. split.
  - intros Hv Hr.
    pose proof (NewTuner_restores_gogc ParseFloat Join c h rt Hr) as Hrt.
    unfold NewTuner in *. fold cfg in Hrt |- *. rewrite Hv in *.
    cbn in Hrt |- *. eexists. split.
    + apply f_equal2; [reflexivity | exact Hrt].
    + cbn. repeat split.
  - intros msg Hv. unfold NewTuner. fold cfg. rewrite Hv. reflexivity.
Qed.

Lemma NewTuner_postcondition_witness :
  exists t,
    NewTuner decimal_ParseFloat slash_Join None limited_host {| gcPercent := 100 |}
    = (Ok t, {| gcPercent := 100 |})
    /\ config t = DefaultConfig /\ running t = false
    /\ metricsHistory t = [] /\ decisionHistory t = []
    /\ maxHistory t = 100 /\ maxDecisions t = 50
    /\ lastGOGC t = gcPercent {| gcPercent := 100 |}
    /\ containerResources t
       = fst (DetectContainerResources decimal_ParseFloat slash_Join limited_host)
    /\ totalDecisions t = 0 /\ stabilityCount t = 0.
Proof.
  assert (Hv : validateConfig DefaultConfig = None) by (vm_compute; reflexivity).
  assert (Hr : -1 <= gcPercent {| gcPercent := 100 |} < 2 ^ 31)
    by (vm_compute; split; [discriminate | reflexivity]).
  exact (proj1 (NewTuner_postcondition decimal_ParseFloat slash_Join None limited_host
                  {| gcPercent := 100 |}) Hv Hr).
Defined.

(** ** The first tick *)

(** X2.  A tick on a tuner with an empty sample history never applies a
    decision, whatever the readings and the configuration: the sample it
    collects has GC frequency 0, the decision history is untouched, at most
    the one sample is on record afterwards, and the runtime is left at -1. *)
Theorem first_tick_makes_no_decision (t : Tuner) (i : TickInput) (rt : Runtime) :
  metricsHistory t = [] ->
  GCFrequency (fst (collectMetrics t (reading i) rt)) = 0%float
  /\ snd (performTuningCycle t i rt) = None
  /\ gcPercent (snd (fst (performTuningCycle t i rt))) = -1
  /\ decisionHistory (fst (fst (performTuningCycle t i rt))) = decisionHistory t
  /\ len (metricsHistory (fst (fst (performTuningCycle t i rt)))) <= 1.
Proof.
  intro He.
  assert (Hf : GCFrequency (fst (collectMetrics t (reading i) rt)) = 0%float).
  { unfold collectMetrics, SetGCPercent. rewrite He. cbn.
    destruct (containerResources t) as [cr|]; [|reflexivity].
    destruct (0 <? CR_MemoryLimit cr); reflexivity. }
  split; [exact Hf|].
  assert (Hnone : snd (performTuningCycle t i rt) = None).
  { unfold performTuningCycle.
    destruct (collectMetrics t (reading i) rt) as [metrics rt1].
    rewrite first_samples_no_decision; [reflexivity|].
    cbn. rewrite He. unfold append_capped, len. cbn.
    destruct (maxHistory t <? 1); cbn; lia. }
  split; [exact Hnone|].
  destruct (performTuningCycle t i rt) as [[t' rt'] od] eqn:Ep.
  cbn in Hnone |- *. subst od.
  pose proof (tick_without_decision _ _ _ _ _ Ep) as Hrt.
  apply performTuningCycle_frame in Ep.
  destruct Ep as (_ & _ & _ & F4 & F5).
  split; [exact Hrt|]. split; [exact F5|].
  rewrite F4, He. unfold append_capped, len. cbn.
  destruct (maxHistory t <? 1); cbn; lia.
Qed.

Lemma first_tick_makes_no_decision_witness :
  GCFrequency (fst (collectMetrics fresh_tuner (reading tick_high_pause)
                                   {| gcPercent := 100 |})) = 0%float
  /\ snd (performTuningCycle fresh_tuner tick_high_pause {| gcPercent := 100 |}) = None
  /\ gcPercent (snd (fst (performTuningCycle fresh_tuner tick_high_pause
                                             {| gcPercent := 100 |}))) = -1
  /\ decisionHistory (fst (fst (performTuningCycle fresh_tuner tick_high_pause
                                                   {| gcPercent := 100 |})))
     = decisionHistory fresh_tuner
  /\ len (metricsHistory (fst (fst (performTuningCycle fresh_tuner tick_high_pause
                                                       {| gcPercent := 100 |})))) <= 1.
Proof.
  exact (first_tick_makes_no_decision fresh_tuner tick_high_pause
           {| gcPercent := 100 |} eq_refl).
Defined.

(** ** The oscillation guard *)

Lemma filter_nonempty {A : Type} (f : A -> bool) (l : list A) :
  0 < len (filter f l) <-> exists x, In x l /\ f x = true.
Proof.
  unfold len. split.
  - intro H. destruct (filter f l) as [|x rest] eqn:E; [cbn in H; lia|].
    assert (Hin : In x (filter f l)) by (rewrite E; left; reflexivity).
    apply filter_In in Hin. exists x. exact Hin.
  - intros (x & Hin & Hf).
    assert (Hx : In x (filter f l)) by (apply filter_In; auto).
    destruct (filter f l); [contradiction|]. cbn [List.length]. lia.
Qed.

(** X3.  The oscillation guard fires exactly when at least four decisions
    are on record, the last four contain a raise (new above old) as well as
    a decision that is not a raise (new below or equal to old), and the
    oldest of the four is younger than the stabilization window. *)
Theorem oscillation_guard_fires_iff (t : Tuner) (clock : Z) :
  shouldSkipDueToOscillation t clock = true
  <-> 4 <= len (decisionHistory t)
      /\ mixed_directions (last_n 4 (decisionHistory t))
      /\ exists oldest rest,
           last_n 4 (decisionHistory t) = oldest :: rest
           /\ time_Sub clock (DecidedAt oldest) < StabilizationWindow (config t).
Proof.
  unfold shouldSkipDueToOscillation, mixed_directions.
  set (recent := last_n 4 (decisionHistory t)).
  destruct (len (decisionHistory t) <? 4) eqn:E4; ltb_props.
  - split; [discriminate | intros (H & _); lia].
  - destruct (0 <? len (filter (fun d => OldGOGC d <? NewGOGC d) recent)) eqn:Ei;
      destruct (0 <? len (filter (fun d => negb (OldGOGC d <? NewGOGC d)) recent)) eqn:Ed;
      ltb_props; cbn [andb].
    + apply filter_nonempty in Ei, Ed.
      destruct recent as [|oldest rest] eqn:Er.
      * destruct Ei as (x & [] & _).
      * destruct (time_Sub clock (DecidedAt oldest) <? StabilizationWindow (config t))
          eqn:Ew; ltb_props.
        -- split; [intros _|reflexivity].
           split; [exact E4|]. split.
           ++ destruct Ei as (x & Hx & Hfx). destruct Ed as (y & Hy & Hfy).
              apply Z.ltb_lt in Hfx. apply negb_true_iff in Hfy. apply Z.ltb_ge in Hfy.
              split; [exists x | exists y]; auto.
           ++ exists oldest, rest. auto.
        -- split; [discriminate|].
           intros (_ & _ & (o & r & Heq & Hlt)). injection Heq as <- <-. lia.
    + split; [discriminate|].
      intros (_ & (_ & (y & Hy & Hle)) & _).
      assert (Hex : exists x, In x recent /\ negb (OldGOGC x <? NewGOGC x) = true).
      { exists y. split; [exact Hy|]. apply negb_true_iff. apply Z.ltb_ge. exact Hle. }
      apply filter_nonempty in Hex. lia.
    + split; [discriminate|].
      intros (_ & ((x & Hx & Hlt) & _) & _).
      assert (Hex : exists x, In x recent /\ (OldGOGC x <? NewGOGC x) = true).
      { exists x. split; [exact Hx|]. apply Z.ltb_lt. exact Hlt. }
      apply filter_nonempty in Hex. lia.
    + split; [discriminate|].
      intros (_ & ((x & Hx & Hlt) & _) & _).
      assert (Hex : exists x, In x recent /\ (OldGOGC x <? NewGOGC x) = true).
      { exists x. split; [exact Hx|]. apply Z.ltb_lt. exact Hlt. }
      apply filter_nonempty in Hex. lia.
Qed.

Lemma last_n_incl {A : Type} (n : nat) (s : list A) (x : A) :
  In x (last_n n s) -> In x s.
Proof.
  unfold last_n. intro H.
  rewrite <- (firstn_skipn (List.length s - n) s). apply in_or_app. right. exact H.
Qed.

(** When every decision on record is a raise the guard cannot fire. *)
Lemma all_raises_no_skip (t : Tuner) (clock : Z) :
  Forall (fun d => OldGOGC d < NewGOGC d) (decisionHistory t) ->
  shouldSkipDueToOscillation t clock = false.
Proof.
  intro Hall. unfold shouldSkipDueToOscillation.
  destruct (len (decisionHistory t) <? 4); [reflexivity|].
  set (recent := last_n 4 (decisionHistory t)).
  destruct (0 <? len (filter (fun d => negb (OldGOGC d <? NewGOGC d)) recent)) eqn:Ed.
  - apply Z.ltb_lt in Ed. apply filter_nonempty in Ed.
    destruct Ed as (y & Hy & Hfy).
    apply negb_true_iff in Hfy. apply Z.ltb_ge in Hfy.
    apply last_n_incl in Hy.
    rewrite Forall_forall in Hall. specialize (Hall y Hy). lia.
  - rewrite andb_false_r. reflexivity.
Qed.

(** Every decision a tick records has old ratio -1 and, under a validated
    configuration, a new ratio of at least 10. *)
Lemma ticks_record_raises (t0 t : Tuner) :
  validateConfig (config t0) = None ->
  Forall (fun d => OldGOGC d = -1 /\ 10 <= NewGOGC d) (decisionHistory t0) ->
  ticks_from t0 t ->
  config t = config t0
  /\ Forall (fun d => OldGOGC d = -1 /\ 10 <= NewGOGC d) (decisionHistory t).
Proof.
  intros Hv H0 Ht. induction Ht as [|t i rt Ht IH].
  - auto.
  - destruct IH as [Hc Hall].
    destruct (performTuningCycle t i rt) as [[t' rt'] od] eqn:Ep. cbn.
    pose proof (performTuningCycle_frame _ _ _ _ _ _ Ep) as (F1 & _ & _ & _ & F5).
    split; [congruence|].
    rewrite F5. destruct od as [d|]; [|exact Hall].
    apply append_capped_Forall; [exact Hall|].
    split.
    + exact (proj1 (tick_records_old_ratio _ _ _ _ _ _ Ep)).
    + rewrite <- Hc in Hv.
      pose proof (proj1 (proj2 (decision_within_bounds t Hv) _ _ _ _ _ Ep)) as Hb.
      apply valid_bounds in Hv. lia.
Qed.

(** X4.  In a tuner built by the constructor and driven by ticks alone,
    every decision on record has old ratio -1 (what [collectMetrics] left
    in the runtime) and a new ratio of at least 10, so every one of them
    counts as a raise and the oscillation guard never fires, at any clock
    reading. *)
Theorem guard_never_fires_under_ticks
    (ParseFloat : string -> result float) (Join : list string -> string)
    (c : option Config) (h : Host) (rt rt0 : Runtime) (t0 t : Tuner) :
  NewTuner ParseFloat Join c h rt = (Ok t0, rt0) ->
  ticks_from t0 t ->
  Forall (fun d => OldGOGC d = -1 /\ 10 <= NewGOGC d) (decisionHistory t)
  /\ forall clock, shouldSkipDueToOscillation t clock = false.
Proof.
  intros Hn Ht.
  pose proof (NewTuner_valid _ _ _ _ _ _ _ Hn) as Hv.
  apply NewTuner_fresh in Hn. destruct Hn as (_ & _ & _ & Hd).
  assert (H0 : Forall (fun d => OldGOGC d = -1 /\ 10 <= NewGOGC d) (decisionHistory t0))
    by (rewrite Hd; constructor).
  destruct (ticks_record_raises t0 t Hv H0 Ht) as [_ Hall].
  split; [exact Hall|].
  intro clock. apply all_raises_no_skip.
  eapply Forall_impl; [|exact Hall]. cbn. intros d [Ho Hnw]. lia.
Qed.

Lemma repeat_tick_ticks_from (i : TickInput) (rt : Runtime) (n : nat) (t : Tuner) :
  ticks_from t (repeat_tick i rt n t).
Proof.
  induction n as [|n IH]; cbn [repeat_tick].
  - apply ticks_none.
  - apply ticks_more. exact IH.
Qed.

(** Nine ticks with five-second pauses record five decisions, each from -1
    to the lower bound 50; the guard stays silent. *)
Lemma guard_never_fires_under_ticks_witness :
  len (decisionHistory after_nine_ticks) = 5
  /\ (Forall (fun d => OldGOGC d = -1 /\ 10 <= NewGOGC d)
             (decisionHistory after_nine_ticks)
      /\ forall clock, shouldSkipDueToOscillation after_nine_ticks clock = false).
Proof.
  assert (En : NewTuner decimal_ParseFloat slash_Join None limited_host
                        {| gcPercent := 100 |}
               = (Ok fresh_tuner, {| gcPercent := 100 |}))
    by (vm_compute; reflexivity).
  split; [vm_compute; reflexivity|].
  exact (guard_never_fires_under_ticks decimal_ParseFloat slash_Join None limited_host
           {| gcPercent := 100 |} {| gcPercent := 100 |} fresh_tuner after_nine_ticks En
           (repeat_tick_ticks_from tick_long_pause {| gcPercent := -1 |} 9 fresh_tuner)).
Defined.

(** ** Confidence *)

Lemma calculateConfidence_values (t : Tuner) (m : Metrics) :
  In (calculateConfidence t m) confidence_values.
Proof.
  unfold calculateConfidence.
  destruct (len (metricsHistory t) <? 5);
    (destruct (3 <=? len (metricsHistory t));
     [destruct (0.3 <? calculateVariation _ _)%float|]);
    destruct ((CurrentGOGC m <=? int_add (MinGOGC (config t)) 20)
              || (int_sub (MaxGOGC (config t)) 20 <=? CurrentGOGC m));
    destruct ((0.95 <? MemoryPressure m)%float || (MemoryPressure m <? 0.05)%float);
    vm_compute; repeat (first [left; reflexivity | right]).
Qed.

(** X5.  The confidence is always a number above 0.4 and at most 1, and a
    decision is emitted only with a confidence of at least 0.6 (and so
    between 0.6 and 1). *)
Theorem confidence_range :
  (forall (t : Tuner) (m : Metrics),
      (0.4 <? calculateConfidence t m)%float = true
      /\ (calculateConfidence t m <=? 1)%float = true)
  /\ (forall (t t' : Tuner) (m : Metrics) (g dn : Z) (d : TuningDecision),
      makeTuningDecision t m g dn = (Some d, t') ->
      (0.6 <=? Confidence d)%float = true
      /\ (Confidence d <=? 1)%float = true).
Proof.
  assert (Hall : Forall (fun c => ((0.4 <? c) && (c <=? 1)
                                   && ((c <? 0.6) || (0.6 <=? c)))%float = true)
                        confidence_values)
    by (vm_compute; repeat constructor).
  rewrite Forall_forall in Hall.
  split.
  - intros t m. specialize (Hall _ (calculateConfidence_values t m)).
    apply andb_true_iff in Hall. destruct Hall as [Hall _].
    apply andb_true_iff in Hall. exact Hall.
  - intros t t' m g dn d Hm.
    apply makeTuningDecision_emits in Hm.
    destruct Hm as (_ & _ & _ & _ & Hc & _ & _ & Hconf & _).
    rewrite Hconf.
    specialize (Hall _ (calculateConfidence_values t m)).
    apply andb_true_iff in Hall. destruct Hall as [Hall Hor].
    apply andb_true_iff in Hall. destruct Hall as [_ Hle].
    rewrite Hc in Hor. cbn in Hor. auto.
Qed.

Lemma confidence_range_witness :
  exists d t',
    makeTuningDecision mid_range_tuner (high_pause 400) 0 0 = (Some d, t')
    /\ Confidence d = 1%float
    /\ ((0.6 <=? Confidence d)%float = true /\ (Confidence d <=? 1)%float = true).
Proof.
  do 2 eexists. split; [vm_compute; reflexivity|]. split; [reflexivity|].
  assert (Hm : makeTuningDecision mid_range_tuner (high_pause 400) 0 0 = (_, _))
    by (vm_compute; reflexivity).
  exact (proj2 confidence_range mid_range_tuner _ (high_pause 400) 0 0 _ Hm).
Defined.

(** ** The reason of a decision *)




(** ** Applying a decision *)

(** X7.  After [applyTuningDecision] with a new ratio that fits the
    runtime's 32-bit setting, reading the ratio returns the new ratio, the
    tuner's [lastGOGC] is the new ratio, the stability counter is 0, the
    decision count has grown by one, and the decision on record carries as
    old ratio what the runtime held before the call, whatever old ratio the
    decision was given. *)
Theorem apply_then_read (t : Tuner) (d : TuningDecision) (rt : Runtime) :
  0 <= NewGOGC d < 2 ^ 31 ->
  let '(t', rt', recorded) := applyTuningDecision t d rt in
  current_gogc (fst (GetStats t' rt')) = NewGOGC d
  /\ gcPercent rt' = NewGOGC d
  /\ lastGOGC t' = NewGOGC d
  /\ stabilityCount t' = 0
  /\ totalDecisions t' = int_add (totalDecisions t) 1
  /\ OldGOGC recorded = gcPercent rt
  /\ NewGOGC recorded = NewGOGC d.
Proof.
  intro Hn.
  destruct (applyTuningDecision t d rt) as [[t' rt'] recorded] eqn:Ea.
  pose proof (applyTuningDecision_sets _ _ _ _ _ _ Ea Hn) as (Hrt & Hrec & _).
  unfold applyTuningDecision, SetGCPercent in Ea.
  injection Ea as <- _ _. subst recorded. cbn.
  repeat split; exact Hrt.
Qed.

(** The test of the package: applying 100 to 200 at a runtime ratio of 100
    and reading back gives 200. *)
Lemma apply_then_read_witness :
  let '(t', rt', recorded) :=
    applyTuningDecision fresh_tuner
      {| OldGOGC := 100; NewGOGC := 200;
         Reason := {| direction := increasing; transition := (100, 200); fragments := [] |};
         Confidence := 0.8%float; DecidedAt := 0; Sample := zeroMetrics |}
      {| gcPercent := 100 |} in
  current_gogc (fst (GetStats t' rt')) = 200
  /\ gcPercent rt' = 200
  /\ lastGOGC t' = 200
  /\ stabilityCount t' = 0
  /\ totalDecisions t' = int_add (totalDecisions fresh_tuner) 1
  /\ OldGOGC recorded = 100
  /\ NewGOGC recorded = 200.
Proof.
  assert (Hn : 0 <= 200 < 2 ^ 31) by (vm_compute; split; [discriminate | reflexivity]).
  exact (apply_then_read fresh_tuner
           {| OldGOGC := 100; NewGOGC := 200;
              Reason := {| direction := increasing; transition := (100, 200);
                           fragments := [] |};
              Confidence := 0.8%float; DecidedAt := 0; Sample := zeroMetrics |}
           {| gcPercent := 100 |} Hn).
Defined.

(** ** Counting decisions *)



Lemma performTuningCycle_total (t t' : Tuner) (i : TickInput) (rt rt' : Runtime)
    (od : option TuningDecision) :
  performTuningCycle t i rt = (t', rt', od) ->
  totalDecisions t'
  = match od with
    | Some _ => int_add (totalDecisions t) 1
    | None => totalDecisions t
    end.
Proof.
  unfold performTuningCycle.
  destruct (collectMetrics t (reading i) rt) as [metrics rt1].
  set (t1 := with_metricsHistory _ t).
  assert (Ht : totalDecisions (snd (makeTuningDecision t1 metrics (guard_now i)
                                                        (decision_now i)))
               = totalDecisions t).
  { unfold makeTuningDecision.
    repeat match goal with
           | |- context [if ?b then _ else _] => destruct b
           end; reflexivity. }
  destruct (makeTuningDecision t1 metrics (guard_now i) (decision_now i)) as [[d0|] t2];
    cbn in Ht.
  - unfold applyTuningDecision, SetGCPercent.
    intro H; injection H as <- _ <-. cbn. rewrite Ht. reflexivity.
  - intro H; injection H as <- _ <-. exact Ht.
Qed.



(** ** The runtime after a tick *)

(** X9.  Under a validated configuration a tick leaves the runtime's ratio
    either at -1, when it applies no decision, or at the new ratio of the
    decision it applies, in which case that ratio lies within the clamp
    bounds and is also the tuner's [lastGOGC].  No tick leaves the runtime
    at the ratio it found unless that ratio is one of these. *)
Theorem runtime_after_tick (t t' : Tuner) (i : TickInput) (rt rt' : Runtime)
    (od : option TuningDecision) :
  validateConfig (config t) = None ->
  performTuningCycle t i rt = (t', rt', od) ->
  match od with
  | None => gcPercent rt' = -1 /\ lastGOGC t' = lastGOGC t
  | Some d =>
      gcPercent rt' = NewGOGC d
      /\ lastGOGC t' = NewGOGC d
      /\ MinGOGC (config t) <= gcPercent rt' <= MaxGOGC (config t)
  end.
Proof.
  intros Hv Hp. destruct od as [d|].
  - pose proof (proj2 (decision_within_bounds t Hv) _ _ _ _ _ Hp) as [Hb Hrt].
    split; [exact Hrt|]. split; [|rewrite Hrt; exact Hb].
    apply performTuningCycle_emits in Hp. destruct Hp as (t1 & d0 & _ & _ & Ha).
    unfold applyTuningDecision, SetGCPercent in Ha.
    injection Ha as <- _ <-. reflexivity.
  - split; [exact (tick_without_decision _ _ _ _ _ Hp)|].
    unfold performTuningCycle in Hp.
    destruct (collectMetrics t (reading i) rt) as [metrics rt1].
    set (t1 := with_metricsHistory _ t) in Hp.
    assert (Hl : lastGOGC (snd (makeTuningDecision t1 metrics (guard_now i)
                                                   (decision_now i)))
                 = lastGOGC t).
    { unfold makeTuningDecision.
      repeat match goal with
             | |- context [if ?b then _ else _] => destruct b
             end; reflexivity. }
    destruct (makeTuningDecision t1 metrics (guard_now i) (decision_now i))
      as [[d0|] t2]; cbn in Hl.
    + destruct (applyTuningDecision t2 d0 rt1) as [[? ?] ?]. discriminate.
    + injection Hp as <- _. exact Hl.
Qed.

Lemma runtime_after_tick_witness :
  exists t' rt' d,
    performTuningCycle near_max_tuner tick_high_pause {| gcPercent := 795 |}
    = (t', rt', Some d)
    /\ gcPercent rt' = 800
    /\ (gcPercent rt' = NewGOGC d
        /\ lastGOGC t' = NewGOGC d
        /\ MinGOGC (config near_max_tuner) <= gcPercent rt'
           <= MaxGOGC (config near_max_tuner)).
Proof.
  assert (Hv : validateConfig (config near_max_tuner) = None)
    by (vm_compute; reflexivity).
  do 3 eexists. split; [vm_compute; reflexivity|]. split; [reflexivity|].
  assert (Hp : performTuningCycle near_max_tuner tick_high_pause {| gcPercent := 795 |}
               = (_, _, Some _)) by (vm_compute; reflexivity).
  exact (runtime_after_tick near_max_tuner _ tick_high_pause {| gcPercent := 795 |}
           _ (Some _) Hv Hp).
Defined.

(** ** The pause of a sample *)

Lemma collectMetrics_pause (t : Tuner) (r : Reading) (rt : Runtime) :
  GCPauseTime (fst (collectMetrics t r rt))
  = if 0 <? len (gcStats_Pause r) then
      Z.quot (fold_left int_add
                (firstn (Z.to_nat (if 10 <? len (gcStats_Pause r) then 10
                                   else len (gcStats_Pause r)))
                        (gcStats_Pause r)) 0)
             (if 10 <? len (gcStats_Pause r) then 10 else len (gcStats_Pause r))
    else 0.
Proof.
  unfold collectMetrics, SetGCPercent.
  destruct (containerResources t) as [cr|].
  - destruct (0 <? CR_MemoryLimit cr); reflexivity.
  - reflexivity.
Qed.

Lemma sum_bounded (P : Z) (l : list Z) (acc : Z) :
  0 <= P ->
  Forall (fun p => 0 <= p <= P) l ->
  0 <= acc -> acc + len l * P <= int_max ->
  0 <= fold_left int_add l acc <= acc + len l * P.
Proof.
  intros HP Hl. revert acc.
  induction Hl as [|p l Hp Hl IH]; intros acc Hacc Hmax; cbn [fold_left].
  - unfold len. cbn. lia.
  - rewrite len_cons in Hmax |- *.
    assert (Hlen : 0 <= len l) by (unfold len; lia).
    assert (Hadd : int_add acc p = acc + p).
    { unfold int_add. apply wrap_int_id. unfold in_int, int_min, int_max in *. nia. }
    rewrite Hadd.
    assert (Hstep : 0 <= fold_left int_add l (acc + p) <= acc + p + len l * P)
      by (apply IH; nia).
    nia.
Qed.

Lemma Forall_firstn {A : Type} (Q : A -> Prop) (n : nat) (l : list A) :
  Forall Q l -> Forall Q (firstn n l).
Proof.
  intro H. rewrite Forall_forall in *. intros x Hx. apply H.
  rewrite <- (firstn_skipn n l). apply in_or_app. left. exact Hx.
Qed.

(** X10.  The pause of a sample is computed from the ten most recent
    pauses only: older entries of the pause list do not change the sample.
    With no pause on record it is 0.  When every pause lies between 0 and
    a bound of at most 2^59 nanoseconds, the sum does not overflow and the
    pause of the sample lies between 0 and that bound. *)
Theorem sample_pause_is_recent_mean (t : Tuner) (r : Reading) (rt : Runtime) :
  collectMetrics t (with_pauses (firstn 10 (gcStats_Pause r)) r) rt
  = collectMetrics t r rt
  /\ (gcStats_Pause r = [] -> GCPauseTime (fst (collectMetrics t r rt)) = 0)
  /\ (forall P,
        0 <= P <= 2 ^ 59 ->
        Forall (fun p => 0 <= p <= P) (gcStats_Pause r) ->
        0 <= GCPauseTime (fst (collectMetrics t r rt)) <= P).
Proof.
  split; [|split].
  - destruct r as [ms l nw]. unfold with_pauses. cbn [gcStats_Pause memStats now].
    destruct (10 <? len l) eqn:E; ltb_props.
    + assert (Hl10 : len (firstn 10 l) = 10).
      { unfold len in *. rewrite length_firstn. lia. }
      unfold collectMetrics. cbn [gcStats_Pause memStats now].
      rewrite Hl10.
      assert (E1 : (10 <? len l) = true) by (apply Z.ltb_lt; exact E).
      assert (E2 : (0 <? len l) = true) by (apply Z.ltb_lt; lia).
      rewrite E1, E2. cbn [Z.ltb Z.compare Pos.compare Pos.compare_cont].
      change (Z.to_nat 10) with 10%nat.
      rewrite firstn_firstn. cbn [Nat.min]. reflexivity.
    + rewrite firstn_all2; [reflexivity|]. unfold len in E. lia.
  - intro He. rewrite collectMetrics_pause, He. reflexivity.
  - intros P HP Hall. rewrite collectMetrics_pause.
    set (l := gcStats_Pause r) in *.
    destruct (0 <? len l) eqn:E0; ltb_props; [|lia].
    set (count := if 10 <? len l then 10 else len l).
    assert (Hcount : 0 < count <= 10) by (subst count; destruct (10 <? len l) eqn:E;
                                            ltb_props; lia).
    set (recent := firstn (Z.to_nat count) l).
    assert (Hlen : len recent = count).
    { subst recent. unfold len in *. rewrite length_firstn.
      subst count. destruct (10 <? Z.of_nat (List.length l)) eqn:E; ltb_props; lia. }
    assert (Hsum : 0 <= fold_left int_add recent 0 <= 0 + len recent * P).
    { apply sum_bounded; try lia.
      - apply Forall_firstn. exact Hall.
      - rewrite Hlen. unfold int_max.
        change (2 ^ 59) with 576460752303423488 in HP.
        change (2 ^ 63) with 9223372036854775808. nia. }
    rewrite Hlen in Hsum.
    split.
    + apply Z.quot_pos; lia.
    + apply Z.quot_le_upper_bound; nia.
Qed.

(** Twelve pauses, ten of 2 ms and two older ones of 5 s: the sample's
    pause is 2 ms, the same as for the first ten alone, and within the
    bound of 5 s that covers all twelve. *)
Lemma sample_pause_is_recent_mean_witness :
  GCPauseTime (fst (collectMetrics fresh_tuner reading_twelve_pauses
                                   {| gcPercent := 100 |})) = 2 * Millisecond
  /\ collectMetrics fresh_tuner
       (with_pauses (firstn 10 (gcStats_Pause reading_twelve_pauses))
                    reading_twelve_pauses) {| gcPercent := 100 |}
     = collectMetrics fresh_tuner reading_twelve_pauses {| gcPercent := 100 |}
  /\ 0 <= GCPauseTime (fst (collectMetrics fresh_tuner reading_twelve_pauses
                                           {| gcPercent := 100 |})) <= 5 * Second.
Proof.
  pose proof (sample_pause_is_recent_mean fresh_tuner reading_twelve_pauses
                {| gcPercent := 100 |}) as (H1 & _ & H3).
  split; [vm_compute; reflexivity|]. split; [exact H1|].
  apply H3.
  - vm_compute. split; discriminate.
  - rewrite Forall_forall. intros p Hin.
    cbv [reading_twelve_pauses gcStats_Pause repeat app In] in Hin.
    unfold Millisecond, Second in *. lia.
Defined.

(** * Further properties of the observability layer *)

(** ** The exporter and the health endpoint *)

(** X11.  The data [ExportToJSON] assembles is inconsistent about the
    current ratio whenever the collector was on: the metrics part carries
    the ratio the runtime held before the call, while the statistics part,
    read second, always reports -1; and the runtime is left at -1. *)
Theorem export_reports_two_ratios (t : Tuner) (r : Reading) (clock : Z) (rt : Runtime) :
  CurrentGOGC (export_metrics (fst (ExportToJSON_data t r clock rt))) = gcPercent rt
  /\ current_gogc (export_stats (fst (ExportToJSON_data t r clock rt))) = -1
  /\ gcPercent (snd (ExportToJSON_data t r clock rt)) = -1.
Proof.
  unfold ExportToJSON_data, GetMetrics.
  destruct (collectMetrics_runtime t r rt) as [Hrt Hcur].
  destruct (collectMetrics t r rt) as [metrics rt1]. cbn in Hrt, Hcur. subst rt1.
  cbn. auto.
Qed.

(** X12.  The health endpoint reports "warning" exactly when the memory
    pressure of a fresh sample is above 0.95 or its pause above 100 ms, and
    "healthy" otherwise; it lists a warning per condition met, the memory
    warning first; it reports the running flag unchanged; and, taking its
    sample through [GetMetrics], it leaves the runtime's ratio at -1. *)
Theorem health_endpoint (t : Tuner) (clock : Z) (r : Reading) (rt : Runtime) :
  let m := fst (GetMetrics t r rt) in
  let high_pressure := (0.95 <? MemoryPressure m)%float in
  let high_pause := 100 * Millisecond <? GCPauseTime m in
  let health := fst (handleHealth t clock r rt) in
  health_status health
  = (if high_pressure || high_pause then "warning" else "healthy")%string
  /\ health_warnings health
     = (if high_pressure || high_pause
        then Some ((if high_pressure then ["High memory pressure"%string] else [])
                   ++ (if high_pause then ["High GC pause time"%string] else []))
        else None)
  /\ tuner_running health = running t
  /\ health_timestamp health = clock
  /\ gcPercent (snd (handleHealth t clock r rt)) = -1.
Proof.
  unfold handleHealth, GetMetrics.
  destruct (collectMetrics_runtime t r rt) as [Hrt _].
  destruct (collectMetrics t r rt) as [metrics rt1]. cbn in Hrt. subst rt1.
  cbn [fst snd].
  destruct (0.95 <? MemoryPressure metrics)%float;
    destruct (100 * Millisecond <? GCPauseTime metrics); cbn; auto.
Qed.

(** ** Alerts *)




(** ** The metrics store *)

Lemma from_first_after_some (cutoff : Z) (h kept : list TimestampedMetrics) :
  from_first_after cutoff h = Some kept ->
  exists dropped x rest,
    h = dropped ++ kept
    /\ kept = x :: rest
    /\ time_After (TM_Timestamp x) cutoff = true
    /\ Forall (fun e => time_After (TM_Timestamp e) cutoff = false) dropped.
Proof.
  induction h as [|e h IH]; cbn [from_first_after]; [discriminate|].
  destruct (time_After (TM_Timestamp e) cutoff) eqn:E.
  - intro H; injection H as <-. exists [], e, h. repeat split; auto.
  - intro H. destruct (IH H) as (dropped & x & rest & -> & Hk & Hx & Hd).
    exists (e :: dropped), x, rest. repeat split; auto.
Qed.

Lemma from_first_after_none (cutoff : Z) (h : list TimestampedMetrics) :
  from_first_after cutoff h = None
  <-> Forall (fun e => time_After (TM_Timestamp e) cutoff = false) h.
Proof.
  induction h as [|e h IH]; cbn [from_first_after].
  - split; auto.
  - destruct (time_After (TM_Timestamp e) cutoff) eqn:E.
    + split; [discriminate|]. intro H. inversion H; congruence.
    + rewrite IH. split; [intro H; constructor; assumption | intro H; inversion H; assumption].
Qed.

Lemma last_elem_app_one {A : Type} (s : list A) (x : A) : last_elem (s ++ [x]) = Some x.
Proof. unfold last_elem. rewrite rev_app_distr. reflexivity. Qed.

Lemma last_elem_suffix {A : Type} (pre k : list A) (x : A) :
  k <> [] -> last_elem (pre ++ k) = Some x -> last_elem k = Some x.
Proof.
  unfold last_elem. rewrite rev_app_distr. intros Hk.
  destruct (rev k) as [|y r] eqn:E.
  - exfalso. apply Hk. rewrite <- (rev_involutive k), E. reflexivity.
  - cbn. auto.
Qed.

Lemma append_capped_suffix {A : Type} (max : Z) (s : list A) (x : A) :
  exists dropped, s ++ [x] = dropped ++ append_capped max s x.
Proof.
  unfold append_capped. destruct (max <? len (s ++ [x])).
  - destruct (s ++ [x]) as [|a rest]; [exists []; reflexivity|].
    exists [a]. reflexivity.
  - exists []. reflexivity.
Qed.

Lemma append_capped_last {A : Type} (max : Z) (s : list A) (x : A) :
  1 <= max -> last_elem (append_capped max s x) = Some x.
Proof.
  intro Hmax. unfold append_capped.
  destruct (max <? len (s ++ [x])) eqn:E; ltb_props; [|apply last_elem_app_one].
  destruct s as [|a s]; cbn [app tl].
  - unfold len in E. cbn in E. lia.
  - apply last_elem_app_one.
Qed.

(** X14.  [recordMetrics] keeps a suffix of the old history followed by the
    new entry.  It leaves the configuration and the cap as they are; with a
    cap of at least 1 the new entry is the last one kept; a history within
    the cap stays within it.  The retention step drops only a leading run of
    entries that are not after the cutoff: if any entry is after the cutoff
    the first one kept is; and if no entry is after the cutoff, nothing is
    dropped by retention at all. *)
Theorem recordMetrics_keeps_suffix (obs : ObservabilityServer) (m : Metrics)
    (stamp clock : Z) :
  let entry := {| TM_Metrics := m; TM_Timestamp := stamp |} in
  let cutoff := time_Add clock (int_neg (MetricsRetention (obs_config obs))) in
  let capped := append_capped (maxMetrics obs) (obs_metricsHistory obs) entry in
  let kept := obs_metricsHistory (recordMetrics obs m stamp clock) in
  (exists dropped, obs_metricsHistory obs ++ [entry] = dropped ++ kept)
  /\ obs_config (recordMetrics obs m stamp clock) = obs_config obs
  /\ maxMetrics (recordMetrics obs m stamp clock) = maxMetrics obs
  /\ (1 <= maxMetrics obs -> last_elem kept = Some entry)
  /\ (0 <= maxMetrics obs -> len (obs_metricsHistory obs) <= maxMetrics obs ->
      len kept <= maxMetrics obs)
  /\ (exists stale,
        capped = stale ++ kept
        /\ Forall (fun e => time_After (TM_Timestamp e) cutoff = false) stale)
  /\ ((exists e, In e capped /\ time_After (TM_Timestamp e) cutoff = true) ->
      exists first rest,
        kept = first :: rest /\ time_After (TM_Timestamp first) cutoff = true)
  /\ (Forall (fun e => time_After (TM_Timestamp e) cutoff = false) capped ->
      kept = capped).
Proof.
  intros entry cutoff capped kept.
  assert (Hkept : kept = match from_first_after cutoff capped with
                         | Some k => k
                         | None => capped
                         end) by reflexivity.
  assert (Hstale : exists stale,
             capped = stale ++ kept
             /\ Forall (fun e => time_After (TM_Timestamp e) cutoff = false) stale
             /\ (capped <> [] -> kept <> [])).
  { rewrite Hkept. destruct (from_first_after cutoff capped) as [k|] eqn:E.
    - apply from_first_after_some in E.
      destruct E as (dropped & x & rest & Hc & Hk & _ & Hd).
      exists dropped. repeat split; auto. intros _. rewrite Hk. discriminate.
    - exists []. repeat split; auto. }
  destruct Hstale as (stale & Hc & Hs & Hne).
  split; [|split; [reflexivity|split; [reflexivity|split; [|split; [|split; [|split]]]]]].
  - destruct (append_capped_suffix (maxMetrics obs) (obs_metricsHistory obs) entry)
      as [d Hd].
    exists (d ++ stale). rewrite Hd. fold capped. rewrite Hc. apply app_assoc.
  - intro Hmax.
    pose proof (append_capped_last (maxMetrics obs) (obs_metricsHistory obs) entry Hmax)
      as Hl.
    fold capped in Hl. apply (last_elem_suffix stale); [|rewrite <- Hc; exact Hl].
    apply Hne. intro He. rewrite He in Hl. discriminate.
  - intros H0 Hl.
    pose proof (append_capped_len (maxMetrics obs) (obs_metricsHistory obs) entry Hl H0)
      as Hcap.
    fold capped in Hcap. rewrite Hc in Hcap. unfold len in *.
    rewrite length_app in Hcap. lia.
  - exists stale. auto.
  - intros (e & Hin & He). rewrite Hkept.
    destruct (from_first_after cutoff capped) as [k|] eqn:E.
    + apply from_first_after_some in E.
      destruct E as (_ & x & rest & _ & Hk & Hx & _). exists x, rest. auto.
    + apply from_first_after_none in E. rewrite Forall_forall in E.
      rewrite (E e Hin) in He. discriminate.
  - intro Hall. rewrite Hkept. apply from_first_after_none in Hall.
    rewrite Hall. reflexivity.
Qed.

(** Two days after two entries stamped near 0, with a retention of 24
    hours: both old entries are dropped and the new one is kept. *)
Lemma recordMetrics_keeps_suffix_witness :
  obs_metricsHistory (recordMetrics old_entries_server zeroMetrics (48 * Hour) (48 * Hour))
  = [{| TM_Metrics := zeroMetrics; TM_Timestamp := 48 * Hour |}]
  /\ last_elem (obs_metricsHistory
                  (recordMetrics old_entries_server zeroMetrics (48 * Hour) (48 * Hour)))
     = Some {| TM_Metrics := zeroMetrics; TM_Timestamp := 48 * Hour |}.
Proof.
  split; [vm_compute; reflexivity|].
  assert (Hmax : 1 <= maxMetrics old_entries_server) by (vm_compute; discriminate).
  exact (proj1 (proj2 (proj2 (proj2
           (recordMetrics_keeps_suffix old_entries_server zeroMetrics
              (48 * Hour) (48 * Hour))))) Hmax).
Defined.

(** * Further properties of the container prober *)

(** ** Parsed numbers and limits *)

Lemma parse_digits_nonneg (s : string) :
  forall acc n, 0 <= acc -> parse_digits s acc = Some n -> 0 <= n.
Proof.
  induction s as [|c s IH]; cbn [parse_digits]; intros acc n Hacc H.
  - injection H as <-. exact Hacc.
  - destruct (digit_of c) as [d|] eqn:Ed; [|discriminate].
    apply (IH (10 * acc + d)); [|exact H].
    unfold digit_of in Ed.
    destruct ((48 <=? Z.of_nat (nat_of_ascii c)) && (Z.of_nat (nat_of_ascii c) <=? 57))
      eqn:E; [|discriminate].
    injection Ed as <-. apply andb_true_iff in E. destruct E as [E1 E2]. ltb_props. lia.
Qed.

Lemma ParseUint_range (s : string) (n : Z) :
  ParseUint s = Ok n -> 0 <= n < 2 ^ 64.
Proof.
  unfold ParseUint. destruct s as [|c s]; [discriminate|].
  destruct (parse_digits (String c s) 0) as [k|] eqn:E; [|discriminate].
  destruct (k <? 2 ^ 64) eqn:Ek; [|discriminate].
  intro H; injection H as <-. ltb_props.
  split; [|exact Ek]. apply (parse_digits_nonneg _ 0 k) in E; lia.
Qed.

Lemma readCgroupV2MemoryLimit_paths_range (h : Host) (paths : list string) (limit : Z) :
  readCgroupV2MemoryLimit_paths h paths = Ok limit -> 0 < limit < 2 ^ 63.
Proof.
  induction paths as [|path rest IH]; cbn [readCgroupV2MemoryLimit_paths]; [discriminate|].
  destruct (ReadFile h path) as [data|e]; [|exact IH].
  destruct (String.eqb (TrimSpace data) "max"); [exact IH|].
  destruct (ParseUint (TrimSpace data)) as [l|e]; [|exact IH].
  destruct ((l <? 2 ^ 63) && (0 <? l)) eqn:E; [|exact IH].
  intro H; injection H as <-. apply andb_true_iff in E. destruct E as [E1 E2].
  ltb_props. lia.
Qed.

Lemma find_MemTotal_range (lines : list string) (limit : Z) :
  find_MemTotal lines = Ok limit -> 0 <= limit < 2 ^ 64.
Proof.
  induction lines as [|line rest IH]; cbn [find_MemTotal]; [discriminate|].
  destruct (HasPrefix line "MemTotal:"); [|exact IH].
  destruct (Fields line) as [|f0 [|f1 fs]]; try exact IH.
  destruct (ParseUint f1) as [kb|e]; [|exact IH].
  intro H; injection H as <-. unfold wrap_uint64.
  apply Z.mod_pos_bound. reflexivity.
Qed.

(** X15.  A memory limit taken from a cgroup file, version 2 or version 1,
    is always strictly between 0 and 2^63; the fallback to [/proc/meminfo]
    applies no such check and gives any value from 0 up to 2^64 - 1; so the
    limit [detectMemoryLimit] returns is below 2^64 and may be 0, and the
    prober's memory limit is always below 2^64. *)
Theorem memory_limit_ranges (ParseFloat : string -> result float)
    (Join : list string -> string) (h : Host) :
  (forall limit, readCgroupV2MemoryLimit h = Ok limit -> 0 < limit < 2 ^ 63)
  /\ (forall limit, readCgroupV1MemoryLimit Join h = Ok limit -> 0 < limit < 2 ^ 63)
  /\ (forall limit, readProcMemInfo h = Ok limit -> 0 <= limit < 2 ^ 64)
  /\ (forall limit, detectMemoryLimit Join h = Ok limit -> 0 <= limit < 2 ^ 64)
  /\ (forall r, fst (DetectContainerResources ParseFloat Join h) = Some r ->
        0 <= CR_MemoryLimit r < 2 ^ 64).
Proof.
  assert (H2 : forall limit, readCgroupV2MemoryLimit h = Ok limit -> 0 < limit < 2 ^ 63).
  { intros limit. apply readCgroupV2MemoryLimit_paths_range. }
  assert (H1 : forall limit, readCgroupV1MemoryLimit Join h = Ok limit
                             -> 0 < limit < 2 ^ 63).
  { intros limit. unfold readCgroupV1MemoryLimit.
    destruct (findCgroupPath Join h "memory") as [p|e]; [|discriminate].
    destruct (ReadFile h _) as [data|e]; [|discriminate].
    destruct (ParseUint (TrimSpace data)) as [l|e] eqn:Ep; [|discriminate].
    destruct ((2 ^ 63 <=? l) || (l =? 0)) eqn:E; [discriminate|].
    intro H; injection H as <-. apply orb_false_iff in E. destruct E as [E1 E2].
    apply ParseUint_range in Ep. apply Z.eqb_neq in E2. ltb_props. lia. }
  assert (Hm : forall limit, readProcMemInfo h = Ok limit -> 0 <= limit < 2 ^ 64).
  { intros limit. unfold readProcMemInfo.
    destruct (ReadFile h "/proc/meminfo") as [data|e]; [|discriminate].
    apply find_MemTotal_range. }
  assert (Hd : forall limit, detectMemoryLimit Join h = Ok limit -> 0 <= limit < 2 ^ 64).
  { intros limit. unfold detectMemoryLimit.
    destruct (readCgroupV2MemoryLimit h) as [l2|e2] eqn:E2.
    - intro H; injection H as <-. specialize (H2 _ eq_refl). int_consts. lia.
    - destruct (readCgroupV1MemoryLimit Join h) as [l1|e1] eqn:E1.
      + intro H; injection H as <-. specialize (H1 _ eq_refl). int_consts. lia.
      + destruct (readProcMemInfo h) as [l0|e0] eqn:E0; [|discriminate].
        intro H; injection H as <-. exact (Hm _ eq_refl). }
  split; [exact H2|]. split; [exact H1|]. split; [exact Hm|]. split; [exact Hd|].
  intros r Hr. unfold DetectContainerResources in Hr. cbn in Hr.
  injection Hr as <-. destruct (isRunningInContainer h); cbn.
  - destruct (detectMemoryLimit Join h) as [l|e] eqn:E;
      [apply (Hd _ eq_refl) | int_consts; lia].
  - int_consts; lia.
Qed.

(** On [unified_host] no cgroup file gives a limit and the fallback reports
    the 16 GiB of the machine. *)
Lemma memory_limit_ranges_witness :
  detectMemoryLimit slash_Join unified_host = Ok 17179869184
  /\ 0 <= 17179869184 < 2 ^ 64.
Proof.
  assert (E : detectMemoryLimit slash_Join unified_host = Ok 17179869184)
    by (vm_compute; reflexivity).
  split; [exact E|].
  exact (proj1 (proj2 (proj2 (proj2
           (memory_limit_ranges decimal_ParseFloat slash_Join unified_host))))
           17179869184 E).
Defined.

(** ** Containerization signals *)

(** X16.  The process counts as containerized exactly when at least one of
    the four signals is present; the prober's [IsContainer] flag is that
    verdict, and when the flag is off both limits are 0. *)
Theorem containerized_iff_some_signal (h : Host) :
  (isRunningInContainer h = false <-> signals_absent h)
  /\ (isRunningInContainer h = true
      <-> Stat h "/.dockerenv" = true
          \/ (exists content,
                ReadFile h "/proc/1/cgroup" = Ok content
                /\ (Contains content "docker" = true
                    \/ Contains content "kubepods" = true
                    \/ Contains content "containerd" = true))
          \/ Getpid h = 1
          \/ Getenv h "KUBERNETES_SERVICE_HOST" <> EmptyString)
  /\ (forall ParseFloat Join r,
        fst (DetectContainerResources ParseFloat Join h) = Some r ->
        IsContainer r = isRunningInContainer h
        /\ (IsContainer r = false -> CR_MemoryLimit r = 0 /\ CR_CPULimit r = 0%float)).
Proof.
  split; [|split].
  - split; [|apply signals_absent_not_container].
    unfold isRunningInContainer, signals_absent.
    destruct (Stat h "/.dockerenv"); [discriminate|].
    destruct (ReadFile h "/proc/1/cgroup") as [content|e].
    + destruct (Contains content "docker"); [discriminate|].
      destruct (Contains content "kubepods"); [discriminate|].
      destruct (Contains content "containerd"); [discriminate|]. cbn.
      destruct (Getpid h =? 1) eqn:Ep; [discriminate|].
      destruct (String.eqb (Getenv h "KUBERNETES_SERVICE_HOST") EmptyString) eqn:Ee;
        [|discriminate].
      intros _. apply Z.eqb_neq in Ep. apply String.eqb_eq in Ee. auto.
    + destruct (Getpid h =? 1) eqn:Ep; [discriminate|].
      destruct (String.eqb (Getenv h "KUBERNETES_SERVICE_HOST") EmptyString) eqn:Ee;
        [|discriminate].
      intros _. apply Z.eqb_neq in Ep. apply String.eqb_eq in Ee. auto.
  - unfold isRunningInContainer.
    destruct (Stat h "/.dockerenv"); [split; auto|].
    destruct (ReadFile h "/proc/1/cgroup") as [content|e].
    + destruct (Contains content "docker") eqn:E1;
        [split; [intros _; right; left; exists content; auto | reflexivity]|].
      destruct (Contains content "kubepods") eqn:E2;
        [split; [intros _; right; left; exists content; auto | reflexivity]|].
      destruct (Contains content "containerd") eqn:E3;
        [split; [intros _; right; left; exists content; auto | reflexivity]|].
      cbn.
      destruct (Getpid h =? 1) eqn:Ep;
        [apply Z.eqb_eq in Ep; split; auto|apply Z.eqb_neq in Ep].
      destruct (String.eqb (Getenv h "KUBERNETES_SERVICE_HOST") EmptyString) eqn:Ee.
      * apply String.eqb_eq in Ee. split; [discriminate|].
        intros [H|[(c & Hc & Hs)|[H|H]]]; try discriminate; try contradiction.
        injection Hc as <-. rewrite E1, E2, E3 in Hs. intuition discriminate.
      * apply String.eqb_neq in Ee. split; auto.
    + destruct (Getpid h =? 1) eqn:Ep;
        [apply Z.eqb_eq in Ep; split; auto|apply Z.eqb_neq in Ep].
      destruct (String.eqb (Getenv h "KUBERNETES_SERVICE_HOST") EmptyString) eqn:Ee.
      * apply String.eqb_eq in Ee. split; [discriminate|].
        intros [H|[(c & Hc & Hs)|[H|H]]]; try discriminate; contradiction.
      * apply String.eqb_neq in Ee. split; auto.
  - intros ParseFloat Join r Hr. unfold DetectContainerResources in Hr. cbn in Hr.
    injection Hr as <-. destruct (isRunningInContainer h); cbn.
    + split; [reflexivity | discriminate].
    + split; auto.
Qed.

(** ** The version 1 hierarchy *)

Lemma find_cgroupRoot_none (lines : list string) :
  Forall not_cgroup_v1_mount lines -> find_cgroupRoot lines = EmptyString.
Proof.
  induction 1 as [|line rest Hl _ IH]; cbn [find_cgroupRoot]; [reflexivity|].
  unfold not_cgroup_v1_mount in Hl.
  destruct (Fields line) as [|f0 [|f1 [|f2 fs]]]; try exact IH.
  cbn in Hl. destruct (String.eqb f2 "cgroup") eqn:E; [|exact IH].
  apply String.eqb_eq in E. subst f2. contradiction.
Qed.

(** X17.  A path [findCgroupPath] returns is the join of a non-empty mount
    root (the second field of the first [/proc/mounts] line whose third
    field is "cgroup"), the subsystem name and a third component, and both
    [/proc/mounts] and [/proc/self/cgroup] were readable.  A read error on
    [/proc/mounts] is returned as it is.  Where no mount line has "cgroup"
    as its third field (a host with only the unified hierarchy, whose type
    is "cgroup2"), the lookup fails with "cgroup mount point not found" for
    every subsystem, and with it the version 1 memory limit, CPU limit and
    memory usage. *)
Theorem findCgroupPath_needs_v1_mount (ParseFloat : string -> result float)
    (Join : list string -> string) (h : Host) (subsystem : string) :
  (forall path,
      findCgroupPath Join h subsystem = Ok path ->
      exists mounts cgroups rel,
        ReadFile h "/proc/mounts" = Ok mounts
        /\ ReadFile h "/proc/self/cgroup" = Ok cgroups
        /\ find_cgroupRoot (ScanLines mounts) <> EmptyString
        /\ path = Join [find_cgroupRoot (ScanLines mounts); subsystem; rel])
  /\ (forall e, ReadFile h "/proc/mounts" = Err e ->
        findCgroupPath Join h subsystem = Err e)
  /\ (forall mounts,
        ReadFile h "/proc/mounts" = Ok mounts ->
        Forall not_cgroup_v1_mount (ScanLines mounts) ->
        findCgroupPath Join h subsystem = Err "cgroup mount point not found"
        /\ readCgroupV1MemoryLimit Join h = Err "cgroup mount point not found"
        /\ readCgroupV1CPULimit ParseFloat Join h = Err "cgroup mount point not found"
        /\ readCgroupV1MemoryUsage Join h = Err "cgroup mount point not found").
Proof.
  split; [|split].
  - intros path. unfold findCgroupPath.
    destruct (ReadFile h "/proc/mounts") as [mounts|e]; [|discriminate].
    destruct (String.eqb (find_cgroupRoot (ScanLines mounts)) EmptyString) eqn:Er;
      [discriminate|].
    destruct (ReadFile h "/proc/self/cgroup") as [cgroups|e]; [|discriminate].
    destruct (find_subsystem_line (ScanLines cgroups) subsystem) as [rel|];
      [|discriminate].
    intro H; injection H as <-. apply String.eqb_neq in Er.
    exists mounts, cgroups, rel. auto.
  - intros e He. unfold findCgroupPath. rewrite He. reflexivity.
  - intros mounts Hm Hall.
    assert (Hf : forall sub, findCgroupPath Join h sub
                             = Err "cgroup mount point not found").
    { intro sub. unfold findCgroupPath. rewrite Hm.
      rewrite (find_cgroupRoot_none _ Hall). reflexivity. }
    split; [apply Hf|].
    unfold readCgroupV1MemoryLimit, readCgroupV1CPULimit, readCgroupV1MemoryUsage.
    rewrite !Hf. auto.
Qed.

Lemma unified_host_no_v1_mount :
  ReadFile unified_host "/proc/mounts"
  = Ok ("cgroup2 /sys/fs/cgroup cgroup2 rw,nosuid 0 0" ++ String "010" EmptyString)%string
  /\ Forall not_cgroup_v1_mount
       (ScanLines ("cgroup2 /sys/fs/cgroup cgroup2 rw,nosuid 0 0"
                   ++ String "010" EmptyString)%string).
Proof.
  split; [reflexivity|].
  assert (E : ScanLines ("cgroup2 /sys/fs/cgroup cgroup2 rw,nosuid 0 0"
                         ++ String "010" EmptyString)%string
              = ["cgroup2 /sys/fs/cgroup cgroup2 rw,nosuid 0 0"%string])
    by (vm_compute; reflexivity).
  rewrite E. constructor; [|constructor].
  unfold not_cgroup_v1_mount. vm_compute. discriminate.
Qed.

Lemma findCgroupPath_needs_v1_mount_witness :
  findCgroupPath slash_Join unified_host "memory" = Err "cgroup mount point not found"
  /\ readCgroupV1MemoryLimit slash_Join unified_host = Err "cgroup mount point not found"
  /\ readCgroupV1CPULimit decimal_ParseFloat slash_Join unified_host
     = Err "cgroup mount point not found"
  /\ readCgroupV1MemoryUsage slash_Join unified_host = Err "cgroup mount point not found".
Proof.
  exact (proj2 (proj2 (findCgroupPath_needs_v1_mount decimal_ParseFloat slash_Join
                         unified_host "memory"))
               _ (proj1 unified_host_no_v1_mount) (proj2 unified_host_no_v1_mount)).
Defined.

(** ** Usage statistics *)

(** X18.  [GetContainerStats] returns a nil error and a value on every
    host.  Its memory usage is below 2^64; it is the content of
    [memory.current] whenever that file holds a number, whatever the
    version 1 files say, and 0 when neither source can be read.  Unlike
    [DetectContainerResources] it does not look at the containerization
    signals: two hosts with the same files get the same statistics. *)
Theorem container_stats_never_fail (Join : list string -> string) (h : Host) :
  snd (GetContainerStats Join h) = None
  /\ (exists stats,
        fst (GetContainerStats Join h) = Some stats
        /\ 0 <= CS_MemoryUsage stats < 2 ^ 64
        /\ (forall usage, readCgroupV2MemoryUsage h = Ok usage ->
              CS_MemoryUsage stats = usage)
        /\ (forall e1 e2, readCgroupV2MemoryUsage h = Err e1 ->
              readCgroupV1MemoryUsage Join h = Err e2 ->
              CS_MemoryUsage stats = 0))
  /\ (forall h', ReadFile h' = ReadFile h ->
        GetContainerStats Join h' = GetContainerStats Join h).
Proof.
  split; [reflexivity|]. split.
  - eexists. split; [reflexivity|]. cbn [CS_MemoryUsage].
    assert (H2 : forall n, readCgroupV2MemoryUsage h = Ok n -> 0 <= n < 2 ^ 64).
    { intros n. unfold readCgroupV2MemoryUsage.
      destruct (ReadFile h _) as [data|e]; [|discriminate]. apply ParseUint_range. }
    assert (H1 : forall n, readCgroupV1MemoryUsage Join h = Ok n -> 0 <= n < 2 ^ 64).
    { intros n. unfold readCgroupV1MemoryUsage.
      destruct (findCgroupPath Join h "memory") as [p|e]; [|discriminate].
      destruct (ReadFile h _) as [data|e]; [|discriminate]. apply ParseUint_range. }
    unfold getCurrentMemoryUsage.
    destruct (readCgroupV2MemoryUsage h) as [u2|e2].
    + split; [apply H2; reflexivity|]. split.
      * intros usage H; injection H as <-. reflexivity.
      * intros e1 e2 H. discriminate.
    + destruct (readCgroupV1MemoryUsage Join h) as [u1|e1].
      * split; [apply H1; reflexivity|]. split; intros; discriminate.
      * split; [int_consts; lia|]. split; [intros; discriminate | reflexivity].
  - intros h' Hrf. destruct h as [s f p e], h' as [s' f' p' e']. cbn in Hrf. subst f'.
    reflexivity.
Qed.

(** On [unified_host], which runs as process 1 and has no version 1
    hierarchy, the usage is read from [memory.current]. *)
Lemma container_stats_never_fail_witness :
  readCgroupV2MemoryUsage unified_host = Ok 104857600
  /\ exists stats,
       fst (GetContainerStats slash_Join unified_host) = Some stats
       /\ CS_MemoryUsage stats = 104857600.
Proof.
  assert (E : readCgroupV2MemoryUsage unified_host = Ok 104857600)
    by (vm_compute; reflexivity).
  split; [exact E|].
  destruct (proj1 (proj2 (container_stats_never_fail slash_Join unified_host)))
    as (stats & Hs & _ & Hv2 & _).
  exists stats. split; [exact Hs | exact (Hv2 _ E)].
Defined.

(** * Further properties of the decision path *)

(** ** Direction of a decision *)

Lemma gates_between (t : Tuner) (c T : Z) :
  10 <= MinGOGC (config t) ->
  MinGOGC (config t) <= MaxGOGC (config t) ->
  MaxGOGC (config t) <= 2000 ->
  0 <= MaxChangePerInterval (config t) <= int_max ->
  in_int T -> in_int (T - c) ->
  MinGOGC (config t) <= c <= MaxGOGC (config t) ->
  let N := bounded t (rate_limited t c T) in
  (c <= T -> c <= N <= T) /\ (T <= c -> T <= N <= c).
Proof.
  intros Hmin Hmm Hmax Hk HT HTc Hc N. subst N.
  unfold bounded, rate_limited, abs, int_add, int_sub, int_neg in *.
  rewrite (wrap_int_id (T - c) HTc).
  set (k := MaxChangePerInterval (config t)) in *.
  set (lo := MinGOGC (config t)) in *.
  set (hi := MaxGOGC (config t)) in *.
  assert (Hneg : T - c <> int_min -> wrap_int (- (T - c)) = - (T - c)).
  { intro Hne. apply wrap_int_id. unfold in_int, int_min, int_max in *. lia. }
  destruct (T - c <? 0) eqn:Eneg; ltb_props.
  - destruct (Z.eq_dec (T - c) int_min) as [Hmn|Hmn].
    + (* the difference is the most negative integer; its negation wraps *)
      assert (Hw : wrap_int (- (T - c)) = int_min).
      { rewrite Hmn. vm_compute. reflexivity. }
      rewrite Hw.
      destruct (k <? int_min) eqn:Ek; ltb_props;
        [unfold int_min, int_max in *; lia|].
      destruct (T <? lo) eqn:E1; ltb_props.
      * destruct (hi <? lo) eqn:E2; ltb_props; unfold int_min in *; lia.
      * destruct (hi <? T) eqn:E2; ltb_props; unfold int_min in *; lia.
    + rewrite (Hneg Hmn).
      destruct (k <? - (T - c)) eqn:Ek; ltb_props.
      * destruct (0 <? T - c) eqn:Epos; ltb_props; [lia|].
        assert (Hs : wrap_int (c - k) = c - k).
        { apply wrap_int_id. unfold in_int, int_min, int_max in *. lia. }
        rewrite Hs.
        destruct (c - k <? lo) eqn:E1; ltb_props.
        -- destruct (hi <? lo) eqn:E2; ltb_props; lia.
        -- destruct (hi <? c - k) eqn:E2; ltb_props; lia.
      * destruct (T <? lo) eqn:E1; ltb_props.
        -- destruct (hi <? lo) eqn:E2; ltb_props; lia.
        -- destruct (hi <? T) eqn:E2; ltb_props; lia.
  - destruct (k <? T - c) eqn:Ek; ltb_props.
    + destruct (0 <? T - c) eqn:Epos; ltb_props; [|lia].
      assert (Hs : wrap_int (c + k) = c + k).
      { apply wrap_int_id. unfold in_int, int_min, int_max in *. lia. }
      rewrite Hs.
      destruct (c + k <? lo) eqn:E1; ltb_props.
      * destruct (hi <? lo) eqn:E2; ltb_props; lia.
      * destruct (hi <? c + k) eqn:E2; ltb_props; lia.
    + destruct (T <? lo) eqn:E1; ltb_props.
      * destruct (hi <? lo) eqn:E2; ltb_props; lia.
      * destruct (hi <? T) eqn:E2; ltb_props; lia.
Qed.

(** X19.  A decision never moves the ratio away from the computed target:
    under a validated configuration with a non-negative change cap, for a
    current ratio inside the clamp bounds and a target whose distance to it
    fits a 64-bit integer, the new ratio lies between the current ratio
    and the target, ends included. *)
Theorem decision_between_current_and_target (t t' : Tuner) (m : Metrics) (g dn : Z)
    (d : TuningDecision) :
  validateConfig (config t) = None ->
  0 <= MaxChangePerInterval (config t) <= int_max ->
  MinGOGC (config t) <= CurrentGOGC m <= MaxGOGC (config t) ->
  in_int (calculateTargetGOGC t m - CurrentGOGC m) ->
  makeTuningDecision t m g dn = (Some d, t') ->
  (CurrentGOGC m <= calculateTargetGOGC t m ->
   CurrentGOGC m <= NewGOGC d <= calculateTargetGOGC t m)
  /\ (calculateTargetGOGC t m <= CurrentGOGC m ->
      calculateTargetGOGC t m <= NewGOGC d <= CurrentGOGC m).
Proof.
  intros Hv Hk Hc Hd Hm.
  apply valid_bounds in Hv. destruct Hv as (Hlo & Hmm & Hhi).
  apply makeTuningDecision_emits in Hm.
  destruct Hm as (_ & _ & _ & _ & _ & _ & Hnew & _).
  rewrite Hnew.
  exact (gates_between t (CurrentGOGC m) (calculateTargetGOGC t m)
           Hlo Hmm Hhi Hk (calculateTargetGOGC_range t m) Hd Hc).
Qed.

Lemma decision_between_current_and_target_witness :
  exists d t',
    makeTuningDecision mid_range_tuner (high_pause 400) 0 0 = (Some d, t')
    /\ calculateTargetGOGC mid_range_tuner (high_pause 400) = 480
    /\ NewGOGC d = 450
    /\ (CurrentGOGC (high_pause 400) <= calculateTargetGOGC mid_range_tuner (high_pause 400)
        -> CurrentGOGC (high_pause 400) <= NewGOGC d
           <= calculateTargetGOGC mid_range_tuner (high_pause 400)).
Proof.
  assert (Hv : validateConfig (config mid_range_tuner) = None)
    by (vm_compute; reflexivity).
  assert (Hk : 0 <= MaxChangePerInterval (config mid_range_tuner) <= int_max)
    by (vm_compute; split; discriminate).
  assert (Hc : MinGOGC (config mid_range_tuner) <= CurrentGOGC (high_pause 400)
               <= MaxGOGC (config mid_range_tuner))
    by (vm_compute; split; discriminate).
  assert (Hd : in_int (calculateTargetGOGC mid_range_tuner (high_pause 400)
                       - CurrentGOGC (high_pause 400)))
    by (vm_compute; split; discriminate).
  do 2 eexists. split; [vm_compute; reflexivity|].
  split; [vm_compute; reflexivity|]. split; [reflexivity|].
  assert (Hm : makeTuningDecision mid_range_tuner (high_pause 400) 0 0 = (_, _))
    by (vm_compute; reflexivity).
  exact (proj1 (decision_between_current_and_target mid_range_tuner _ (high_pause 400)
                  0 0 _ Hv Hk Hc Hd Hm)).
Defined.

(** ** The first ticks outside a container *)

Lemma performTuningCycle_resources (t : Tuner) (i : TickInput) (rt : Runtime) :
  containerResources (fst (fst (performTuningCycle t i rt))) = containerResources t.
Proof.
  unfold performTuningCycle.
  destruct (collectMetrics t (reading i) rt) as [metrics rt1].
  set (t1 := with_metricsHistory _ t).
  assert (Hr : containerResources (snd (makeTuningDecision t1 metrics (guard_now i)
                                                           (decision_now i)))
               = containerResources t).
  { unfold makeTuningDecision.
    repeat match goal with
           | |- context [if ?b then _ else _] => destruct b
           end; reflexivity. }
  destruct (makeTuningDecision t1 metrics (guard_now i) (decision_now i)) as [[d0|] t2];
    cbn in Hr |- *; exact Hr.
Qed.

Lemma append_capped_len_le {A : Type} (max : Z) (s : list A) (x : A) :
  len (append_capped max s x) <= len s + 1.
Proof.
  unfold append_capped. destruct (max <? len (s ++ [x])).
  - destruct s as [|a s]; cbn [app tl].
    + unfold len. cbn. lia.
    + rewrite len_app_one, len_cons. lia.
  - rewrite len_app_one. lia.
Qed.

Lemma quiet_tick (t : Tuner) (i : TickInput) (rt : Runtime) :
  no_known_limit t ->
  len (metricsHistory t) < 4 ->
  snd (performTuningCycle t i rt) = None.
Proof.
  intros Hn Hl.
  pose proof (pressure_zero_without_limit t (reading i) rt Hn) as Hp.
  unfold performTuningCycle.
  destruct (collectMetrics t (reading i) rt) as [metrics rt1]. cbn in Hp.
  set (t1 := with_metricsHistory _ t).
  assert (Hlen : len (metricsHistory t1) < 5).
  { subst t1. cbn.
    pose proof (append_capped_len_le (maxHistory t) (metricsHistory t) metrics). lia. }
  assert (He : extreme_pressure (MemoryPressure metrics) = true)
    by (rewrite Hp; vm_compute; reflexivity).
  pose proof (proj2 (confidence_short_history t1 metrics Hlen He)) as Hc.
  pose proof (low_confidence_no_decision t1 metrics (guard_now i) (decision_now i) Hc)
    as Hnone.
  destruct (makeTuningDecision t1 metrics (guard_now i) (decision_now i)) as [od t2].
  cbn in Hnone. subst od. reflexivity.
Qed.

(** X20.  A tuner that knows no container memory limit applies no decision
    in a tick that starts with fewer than four samples on record: the
    sample's memory pressure is 0 and the history is short, so the
    confidence stays below 0.6.  In particular none of the first four
    ticks of such a tuner, starting from an empty history, applies a
    decision, whatever the runtime reports. *)
Theorem no_decision_in_first_four_ticks (t : Tuner) (inputs : list TickInput)
    (rt : Runtime) :
  no_known_limit t ->
  len (metricsHistory t) + len inputs <= 4 ->
  decisionHistory (fst (run_ticks t inputs rt)) = decisionHistory t
  /\ totalDecisions (fst (run_ticks t inputs rt)) = totalDecisions t.
Proof.
  revert t rt. induction inputs as [|i rest IH]; intros t rt Hn Hl; cbn [run_ticks].
  - auto.
  - rewrite len_cons in Hl.
    assert (Hrest : 0 <= len rest) by (unfold len; lia).
    pose proof (quiet_tick t i rt Hn ltac:(lia)) as Hq.
    pose proof (performTuningCycle_resources t i rt) as Hr.
    destruct (performTuningCycle t i rt) as [[t1 rt1] od] eqn:Ep.
    cbn in Hq, Hr. subst od.
    pose proof (performTuningCycle_total _ _ _ _ _ _ Ep) as Htot.
    apply performTuningCycle_frame in Ep. destruct Ep as (_ & _ & _ & F4 & F5).
    assert (Hn1 : no_known_limit t1) by (unfold no_known_limit in *; rewrite Hr; exact Hn).
    assert (Hl1 : len (metricsHistory t1) + len rest <= 4).
    { rewrite F4.
      pose proof (append_capped_len_le (maxHistory t) (metricsHistory t)
                    (fst (collectMetrics t (reading i) rt))). lia. }
    destruct (IH t1 rt1 Hn1 Hl1) as [I1 I2].
    rewrite I1, I2, F5, Htot. auto.
Qed.

(** Four ticks with five-second pauses on the fresh tuner of
    [limited_host]: no decision, although the pause is 500 times the
    target. *)
Lemma no_decision_in_first_four_ticks_witness :
  decisionHistory
    (fst (run_ticks fresh_tuner (repeat tick_long_pause 4) {| gcPercent := 100 |}))
  = decisionHistory fresh_tuner
  /\ totalDecisions
       (fst (run_ticks fresh_tuner (repeat tick_long_pause 4) {| gcPercent := 100 |}))
     = totalDecisions fresh_tuner.
Proof.
  assert (Hn : no_known_limit fresh_tuner) by reflexivity.
  assert (Hl : len (metricsHistory fresh_tuner) + len (repeat tick_long_pause 4) <= 4)
    by (vm_compute; discriminate).
  exact (no_decision_in_first_four_ticks fresh_tuner (repeat tick_long_pause 4)
           {| gcPercent := 100 |} Hn Hl).
Defined.
